(** * glacios2warp: splitting a Glacios tilt-series stack for Warp

    Shallow embedding of [split_mrc] and [scrape_dir] (src/glacios2warp.py,
    lines 12-75) and of the Python built-ins they call, followed by the
    verification of the properties stated for them.

    Layout:
    - [PyStr]     text as Python sees it: [readlines], [str.strip], the
                  format specification [:03].
    - [PyFloat]   binary64 floats: [float(str)], [round(x, 1)], [==], [repr].
    - [Re]        the five regular expressions of [split_mrc].
    - [Glacios]   [split_mrc] itself, over an explicit file system.
    - [Scrape]    [scrape_dir], over the listing of the directory.
    - [Spec]      the words of the specification that the theorems
                  compare the code with.

    Text is a [string] of code points below 256, as it is after
    [open(..., encoding='utf-8', errors='ignore')] has decoded it. *)

From Stdlib Require Import ZArith Lia Ascii String List Bool SpecFloat.
From Stdlib Require Import DecimalString DecimalNat.
From stdpp Require Import base tactics option list strings gmap sorting.

Set Warnings "-clear-no-such-hyp".

Local Open Scope string_scope.
Local Open Scope list_scope.
Local Open Scope Z_scope.

(* ===================================================================== *)
(** * Python text                                                         *)
(* ===================================================================== *)

Module PyStr.

Definition code (c : ascii) : nat := nat_of_ascii c.

(** [c.isspace()] for a code point below 256. *)
Definition is_space (c : ascii) : bool :=
  let n := code c in
  ((9 <=? n) && (n <=? 13) || (28 <=? n) && (n <=? 32)
   || (n =? 133) || (n =? 160))%nat.

(** An ASCII decimal digit. *)
Definition is_digit (c : ascii) : bool :=
  let n := code c in ((48 <=? n) && (n <=? 57))%nat.

Definition digit_val (c : ascii) : N := N.of_nat (code c - 48).

(** ASCII lower-casing, [Py_TOLOWER]. *)
Definition lower (c : ascii) : ascii :=
  let n := code c in
  if ((65 <=? n) && (n <=? 90))%nat then ascii_of_nat (n + 32) else c.

Fixpoint lower_str (s : string) : string :=
  match s with
  | EmptyString => EmptyString
  | String c s' => String (lower c) (lower_str s')
  end.

Fixpoint lstrip (s : string) : string :=
  match s with
  | EmptyString => EmptyString
  | String c s' => if is_space c then lstrip s' else s
  end.

Fixpoint rstrip (s : string) : string :=
  match s with
  | EmptyString => EmptyString
  | String c s' =>
      match rstrip s' with
      | EmptyString => if is_space c then EmptyString else String c EmptyString
      | r => String c r
      end
  end.

(** [s.strip()] *)
Definition strip (s : string) : string := rstrip (lstrip s).

Definition newline : ascii := ascii_of_nat 10.
Definition carriage_return : ascii := ascii_of_nat 13.

(** Universal-newlines translation of text mode: ["\r\n"] and a lone
    ["\r"] are read as ["\n"]. *)
Fixpoint universal_newlines (s : string) : string :=
  match s with
  | EmptyString => EmptyString
  | String c s' =>
      if Ascii.eqb c carriage_return then
        match s' with
        | String d s'' =>
            if Ascii.eqb d newline then String newline (universal_newlines s'')
            else String newline (universal_newlines s')
        | EmptyString => String newline EmptyString
        end
      else String c (universal_newlines s')
  end.

(** Splitting after each ["\n"]; the terminator stays on its line and a
    last line without terminator is kept. [cur] is the current line,
    reversed. *)
Fixpoint split_lines (cur : string) (s : string) : list string :=
  match s with
  | EmptyString =>
      match cur with EmptyString => [] | _ => [String.rev cur] end
  | String c s' =>
      if Ascii.eqb c newline then String.rev (String c cur) :: split_lines EmptyString s'
      else split_lines (String c cur) s'
  end.

(** [open(path, 'r').readlines()] on a file whose decoded content is [s]. *)
Definition readlines (s : string) : list string :=
  split_lines EmptyString (universal_newlines s).

(** Decimal digits of a natural number, as [str(n)] gives them. *)
Definition str_of_nat (n : nat) : string :=
  NilEmpty.string_of_uint (Nat.to_uint n).

Fixpoint zeros (n : nat) : string :=
  match n with
  | O => EmptyString
  | S n' => String "0" (zeros n')
  end.

(** [f'{n:03}'] for [n >= 0]: zero-padded on the left to width 3, longer
    numbers are printed in full. *)
Definition format_03 (n : nat) : string :=
  let d := str_of_nat n in
  zeros (3 - String.length d) +:+ d.

(** Reading a run of decimal digits back, [int(s)]. *)
Definition nat_of_str (s : string) : option nat :=
  Nat.of_uint <$> NilEmpty.uint_of_string s.

Fixpoint all_digits (s : string) : bool :=
  match s with
  | EmptyString => true
  | String c s' => is_digit c && all_digits s'
  end.

(** The number that a run of digits denotes, after digits worth [acc]. *)
Fixpoint digits_value (acc : N) (s : string) : N :=
  match s with
  | EmptyString => acc
  | String c s' => digits_value (10 * acc + digit_val c) s'
  end.

(** Does [c] occur in [s]? *)
Fixpoint occurs (c : ascii) (s : string) : bool :=
  match s with
  | EmptyString => false
  | String d s' => Ascii.eqb c d || occurs c s'
  end.

End PyStr.

(* ===================================================================== *)
(** * Python floats (IEEE 754 binary64)                                   *)
(* ===================================================================== *)

Module PyFloat.

(** binary64: 53 bits of precision, exponent of the infinities 1024. *)
Definition prec : Z := 53.
Definition emax : Z := 1024.

(** A Python [float] object, without NaN payload. *)
Definition float : Type := spec_float.

Definition nan : float := S754_nan.
Definition inf (neg : bool) : float := S754_infinity neg.

(** The binary64 nearest to [(-1)^s * n / d] (ties to even): the result
    of a correctly rounded decimal-to-binary conversion. *)
Definition of_ratio (s : bool) (n d : positive) : float :=
  SFdiv prec emax (S754_finite s n 0) (S754_finite false d 0).

(** The binary64 nearest to [(-1)^s * n * 10^k]. *)
Definition of_decimal (s : bool) (n : N) (k : Z) : float :=
  match n with
  | N0 => S754_zero s
  | Npos p =>
      if 0 <=? k then of_ratio s (p * Z.to_pos (10 ^ k)) 1
      else of_ratio s p (Z.to_pos (10 ^ (- k)))
  end.

(** [a / b] rounded to the nearest integer, ties to even ([0 <= a], [0 < b]). *)
Definition div_half_even (a b : Z) : Z :=
  let q := a / b in
  match 2 * (a mod b) ?= b with
  | Lt => q
  | Gt => q + 1
  | Eq => if Z.even q then q else q + 1
  end.

(** [round(x, 1)]: CPython's [float.__round__] with [ndigits = 1].
    Non-finite values and zeros round to themselves; a finite [x] is
    converted to the decimal with one fractional digit nearest to its
    exact value (ties to even), which is then read back as a binary64.
    The sign of [x] is kept, so [round(-0.04, 1)] is [-0.0]. *)
Definition round1 (x : float) : float :=
  match x with
  | S754_finite s m e =>
      let tenths :=
        if 0 <=? e then 10 * Zpos m * 2 ^ e
        else div_half_even (10 * Zpos m) (2 ^ (- e)) in
      of_decimal s (Z.to_N tenths) (-1)
  | _ => x
  end.

(** [x == y] on floats: NaN differs from everything, [0.0 == -0.0]. *)
Definition eqb (x y : float) : bool := SFeqb x y.

(** ** [float(s)] *)

(** An optional sign; [true] for ["-"]. *)
Definition parse_sign (s : string) : bool * string :=
  match s with
  | String c s' =>
      if Ascii.eqb c "-" then (true, s')
      else if Ascii.eqb c "+" then (false, s')
      else (false, s)
  | EmptyString => (false, s)
  end.

(** The longest prefix [digit (["_"] digit)*] after a first digit was
    read: the value read so far is [acc], [cnt] counts the digits.
    An underscore is consumed only between two digits. *)
Fixpoint digits_tail (s : string) (acc : N) (cnt : Z) : N * Z * string :=
  match s with
  | String c s' =>
      if PyStr.is_digit c then
        digits_tail s' (10 * acc + PyStr.digit_val c)%N (cnt + 1)
      else if Ascii.eqb c "_" then
        match s' with
        | String d s'' =>
            if PyStr.is_digit d then
              digits_tail s'' (10 * acc + PyStr.digit_val d)%N (cnt + 1)
            else (acc, cnt, s)
        | EmptyString => (acc, cnt, s)
        end
      else (acc, cnt, s)
  | EmptyString => (acc, cnt, s)
  end.

(** [digitpart ::= digit (["_"] digit)*], continuing the number [acc];
    [None] when [s] does not start with a digit. *)
Definition digitpart (s : string) (acc : N) : option (N * Z * string) :=
  match s with
  | String c s' =>
      if PyStr.is_digit c
      then Some (digits_tail s' (10 * acc + PyStr.digit_val c)%N 1)
      else None
  | EmptyString => None
  end.

(** [exponent ::= ("e" | "E") [sign] digitpart], then the end of the
    string; an absent exponent is 0. *)
Definition parse_exponent (s : string) : option Z :=
  match s with
  | EmptyString => Some 0
  | String c s' =>
      if Ascii.eqb (PyStr.lower c) "e" then
        let '(neg, s1) := parse_sign s' in
        match digitpart s1 0 with
        | Some (n, _, EmptyString) => Some (if neg then - Z.of_N n else Z.of_N n)
        | _ => None
        end
      else None
  end.

(** [number ::= [digitpart] "." digitpart | digitpart ["."]], followed by
    the exponent: the digits as one integer and the power of ten that
    scales it. *)
Definition parse_number (s : string) : option (N * Z) :=
  match digitpart s 0 with
  | Some (n, _, String c s1) =>
      if Ascii.eqb c "." then
        match digitpart s1 n with
        | Some (n', k, s2) => e ← parse_exponent s2; Some (n', e - k)
        | None => e ← parse_exponent s1; Some (n, e)
        end
      else e ← parse_exponent (String c s1); Some (n, e)
  | Some (n, _, EmptyString) => Some (n, 0)
  | None =>
      match s with
      | String c s1 =>
          if Ascii.eqb c "." then
            '(n', k, s2) ← digitpart s1 0;
            e ← parse_exponent s2; Some (n', e - k)
          else None
      | EmptyString => None
      end
  end.

(** [float(s)] for a [str]: surrounding whitespace is dropped, then the
    text is a signed decimal number, an infinity or a NaN (in any case);
    [None] stands for [ValueError]. Numbers are rounded to the nearest
    binary64, those beyond the range become infinities. *)
Definition of_string (s : string) : option float :=
  let '(neg, body) := parse_sign (PyStr.strip s) in
  let word := PyStr.lower_str body in
  if String.eqb word "inf" || String.eqb word "infinity" then Some (inf neg)
  else if String.eqb word "nan" then Some nan
  else '(n, k) ← parse_number body; Some (of_decimal neg n k).

(** ** [repr(x)] *)

(** Is [10^p <= num / den]? *)
Definition le_pow10 (num den p : Z) : bool :=
  if 0 <=? p then 10 ^ p * den <=? num else den <=? num * 10 ^ (- p).

(** The decimal exponent of [num / den]: the largest [p] with
    [10^p <= num / den], searched downwards from [p]. *)
Fixpoint decimal_exponent_from (fuel : nat) (num den p : Z) : Z :=
  match fuel with
  | O => p
  | S fuel' =>
      if le_pow10 num den p then p
      else decimal_exponent_from fuel' num den (p - 1)
  end.

Definition decimal_exponent (num den : Z) : Z :=
  decimal_exponent_from 640 num den 308.

(** [num / den] scaled to an integer number of units [10^scale]. *)
Definition scaled (num den scale : Z) : Z * Z :=
  if 0 <=? scale then (num, den * 10 ^ scale) else (num * 10 ^ (- scale), den).

(** The decimals with [n] significant digits next to [x = num / den]
    (below and above) that read back as [x]; the nearer one when both do. *)
Definition shortest_try (x : float) (num den p n : Z) : option (Z * Z) :=
  let scale := p - n + 1 in
  let '(a, b) := scaled num den scale in
  let lo := a / b in
  let reads_back c := eqb (of_decimal false (Z.to_N c) scale) x in
  match reads_back lo, reads_back (lo + 1) with
  | true, true => Some (div_half_even a b, scale)
  | true, false => Some (lo, scale)
  | false, true => Some (lo + 1, scale)
  | false, false => None
  end.

(** The shortest decimal that reads back as [x], trying [n], [n+1], ...
    significant digits; 17 digits always suffice. *)
Fixpoint shortest_from (fuel : nat) (x : float) (num den p n : Z) : Z * Z :=
  match fuel with
  | O =>
      let '(a, b) := scaled num den (p - n + 1) in
      (div_half_even a b, p - n + 1)
  | S fuel' =>
      match shortest_try x num den p n with
      | Some r => r
      | None => shortest_from fuel' x num den p (n + 1)
      end
  end.

(** Trailing zeros move into the scale. *)
Fixpoint strip_zeros (fuel : nat) (c scale : Z) : Z * Z :=
  match fuel with
  | O => (c, scale)
  | S fuel' =>
      if (c mod 10 =? 0) && negb (c =? 0)
      then strip_zeros fuel' (c / 10) (scale + 1)
      else (c, scale)
  end.

(** Digits and decimal point position of a positive finite [m * 2^e]:
    the value printed is [0.d1d2...dn * 10^decpt]. *)
Definition shortest_digits (m : positive) (e : Z) : string * Z :=
  let x := S754_finite false m e in
  let num := if 0 <=? e then Zpos m * 2 ^ e else Zpos m in
  let den := if 0 <=? e then 1 else 2 ^ (- e) in
  let p := decimal_exponent num den in
  let '(c, scale) := shortest_from 16 x num den p 1 in
  let '(c, scale) := strip_zeros 400 c scale in
  let ds := NilEmpty.string_of_uint (N.to_uint (Z.to_N c)) in
  (ds, scale + Z.of_nat (String.length ds)).

(** The exponent field of the scientific form: a sign and at least two
    digits. *)
Definition format_exponent (e : Z) : string :=
  let ds := NilEmpty.string_of_uint (N.to_uint (Z.to_N (Z.abs e))) in
  "e" +:+ (if e <? 0 then "-" else "+")
      +:+ PyStr.zeros (2 - String.length ds) +:+ ds.

(** Format code ['r']: scientific form when [decpt <= -4] or
    [decpt > 16], positional form otherwise, with [".0"] added to an
    integer. *)
Definition format_digits (ds : string) (decpt : Z) : string :=
  let n := Z.of_nat (String.length ds) in
  if (decpt <=? -4) || (16 <? decpt) then
    match ds with
    | String d EmptyString => String d EmptyString +:+ format_exponent (decpt - 1)
    | String d rest => String d ("." +:+ rest) +:+ format_exponent (decpt - 1)
    | EmptyString => EmptyString
    end
  else if decpt <=? 0 then
    "0." +:+ PyStr.zeros (Z.to_nat (- decpt)) +:+ ds
  else if n <=? decpt then
    ds +:+ PyStr.zeros (Z.to_nat (decpt - n)) +:+ ".0"
  else
    substring 0 (Z.to_nat decpt) ds +:+ "." +:+
    substring (Z.to_nat decpt) (Z.to_nat (n - decpt)) ds.

(** [repr(x)], which is also [str(x)] and what an f-string field
    without format specification prints. *)
Definition repr (x : float) : string :=
  match x with
  | S754_nan => "nan"
  | S754_infinity s => if s then "-inf" else "inf"
  | S754_zero s => if s then "-0.0" else "0.0"
  | S754_finite s m e =>
      let '(ds, decpt) := shortest_digits m e in
      (if s then "-" else "") +:+ format_digits ds decpt
  end.

End PyFloat.

(* ===================================================================== *)
(** * The regular expressions of [split_mrc]                              *)
(* ===================================================================== *)

Module Re.

(** [\d+], greedy: the longest run of digits at the head of [s], and the
    text after it. *)
Fixpoint digit_run (s : string) : string * string :=
  match s with
  | String c s' =>
      if PyStr.is_digit c
      then let '(d, r) := digit_run s' in (String c d, r)
      else (EmptyString, s)
  | EmptyString => (EmptyString, EmptyString)
  end.

(** [\d+\.\d+] at the head of [s]. Giving back digits of the first run
    never helps, a digit is not a dot: the greedy match is the only one. *)
Definition match_decimal (s : string) : option string :=
  match digit_run s with
  | (String c d, String dot s1) =>
      if Ascii.eqb dot "." then
        match digit_run s1 with
        | (String c' d', _) => Some (String c d +:+ "." +:+ String c' d')
        | (EmptyString, _) => None
        end
      else None
  | _ => None
  end.

(** [[+-]?\d+\.\d+] at the head of [s]: with the sign when there is one,
    else without it. *)
Definition match_number (s : string) : option string :=
  match s with
  | String c s' =>
      if Ascii.eqb c "+" || Ascii.eqb c "-" then
        match match_decimal s' with
        | Some t => Some (String c t)
        | None => match_decimal s
        end
      else match_decimal s
  | EmptyString => None
  end.

(** [.*?([+-]?\d+\.\d+)] at the head of [s]: the lazy [.*?] skips as few
    characters as possible, and never a newline; the result is group 1. *)
Fixpoint lazy_number (s : string) : option string :=
  match match_number s with
  | Some t => Some t
  | None =>
      match s with
      | String c s' =>
          if Ascii.eqb c PyStr.newline then None else lazy_number s'
      | EmptyString => None
      end
  end.

(** The texts that [[+-]?\d+\.\d+] matches in full: an optional sign,
    digits, a dot, digits. *)
Definition decimal_text (g : string) : Prop :=
  exists sign int frac : string,
    g = sign +:+ int +:+ "." +:+ frac
    /\ (sign = "" \/ sign = "+" \/ sign = "-")
    /\ int <> "" /\ frac <> ""
    /\ PyStr.all_digits int = true /\ PyStr.all_digits frac = true.

(** [s] with the prefix [p] removed. *)
Fixpoint strip_prefix (p s : string) : option string :=
  match p, s with
  | EmptyString, _ => Some s
  | String a p', String b s' =>
      if Ascii.eqb a b then strip_prefix p' s' else None
  | String _ _, EmptyString => None
  end.

(** The pattern at the head of [s]. *)
Definition match_here (label s : string) : option string :=
  rest ← strip_prefix label s; lazy_number rest.

(** [re.compile(label + '.*?([+-]?\d+\.\d+)').search(line)], for a
    [label] without metacharacters: the match at the leftmost position
    that has one; [group(1)] of it, or [None]. *)
Fixpoint search (label line : string) : option string :=
  match match_here label line with
  | Some t => Some t
  | None =>
      match line with
      | String _ line' => search label line'
      | EmptyString => None
      end
  end.

End Re.

(* ===================================================================== *)
(** * [split_mrc]                                                         *)
(* ===================================================================== *)

Module Glacios.

Import PyFloat.

(** The exceptions [split_mrc] can end with. *)
Inductive exn : Type :=
| ValueError_float (text : string)
    (* float(): could not convert string to float *)
| UnboundLocalError (name : string)
    (* a local variable read before any assignment *)
| ValueError_index
    (* list.index(x): x not in list *)
| ZeroDivisionError
    (* np.vsplit(data, 0) *)
| ValueError_exists (path : string).
    (* mrcfile.new(path, ...): the file exists and overwrite is False *)

(** The result of running Python code: a value, or an exception. *)
Inductive outcome (A : Type) : Type :=
| Returned (a : A)
| Raised (e : exn).

Arguments Returned {A} a.
Arguments Raised {A} e.

#[export] Instance outcome_ret : MRet outcome := fun A a => Returned a.

#[export] Instance outcome_bind : MBind outcome :=
  fun A B f m => match m with Returned a => f a | Raised e => Raised e end.

Definition raised {A} (m : outcome A) : Prop :=
  match m with Raised _ => True | Returned _ => False end.

(** ** Lines 43-61: the parameters file *)

Definition start_angle_re : string -> option string := Re.search "Start tilt angle".
Definition min_angle_re : string -> option string := Re.search "Max negative tilt".
Definition max_angle_re : string -> option string := Re.search "Max positive tilt".
Definition step_re : string -> option string := Re.search "Low tilt step".
Definition step_high_re : string -> option string := Re.search "High tilt step".

(** The local variables the loop over the parameters file assigns; [None]
    is a variable that is still unbound. *)
Record locals : Type := Locals {
  start_angle : option float;
  step : option float;
  step_high : option float;
  min_angle : option float;
  max_angle : option float
}.

Definition unbound : locals := Locals None None None None None.

(** The five variables. *)
Inductive var : Type := Start_angle | Step | Step_high | Min_angle | Max_angle.

#[export] Instance var_eq_dec : EqDecision var.
Proof. solve_decision. Defined.

Definition get (x : var) (l : locals) : option float :=
  match x with
  | Start_angle => start_angle l
  | Step => step l
  | Step_high => step_high l
  | Min_angle => min_angle l
  | Max_angle => max_angle l
  end.

(** The assignment [x = v]. *)
Definition assign (x : var) (v : float) (l : locals) : locals :=
  match x with
  | Start_angle => Locals (Some v) (step l) (step_high l) (min_angle l) (max_angle l)
  | Step => Locals (start_angle l) (Some v) (step_high l) (min_angle l) (max_angle l)
  | Step_high => Locals (start_angle l) (step l) (Some v) (min_angle l) (max_angle l)
  | Min_angle => Locals (start_angle l) (step l) (step_high l) (Some v) (max_angle l)
  | Max_angle => Locals (start_angle l) (step l) (step_high l) (min_angle l) (Some v)
  end.

(** [float(s)], raising [ValueError]. *)
Definition py_float (s : string) : outcome float :=
  match of_string s with
  | Some x => Returned x
  | None => Raised (ValueError_float s)
  end.

(** The [if]/[elif] chain of lines 52-61: the branch a line takes, with
    [match.group(1)]. *)
Definition branch (line : string) : option (var * string) :=
  match start_angle_re line with
  | Some g => Some (Start_angle, g)
  | None =>
  match step_re line with
  | Some g => Some (Step, g)
  | None =>
  match step_high_re line with
  | Some g => Some (Step_high, g)
  | None =>
  match min_angle_re line with
  | Some g => Some (Min_angle, g)
  | None =>
  match max_angle_re line with
  | Some g => Some (Max_angle, g)
  | None => None
  end end end end end.

(** One iteration of the loop of line 51. *)
Definition meta_step (l : locals) (line : string) : outcome locals :=
  match branch line with
  | Some (x, g) => v ← py_float g; mret (assign x v l)
  | None => mret l
  end.

Fixpoint meta_loop (l : locals) (lines : list string) : outcome locals :=
  match lines with
  | [] => mret l
  | line :: rest => l' ← meta_step l line; meta_loop l' rest
  end.

(** Lines 49-61, on the decoded content of [meta_file]. *)
Definition parse_meta (meta_text : string) : outcome locals :=
  meta_loop unbound (PyStr.readlines meta_text).

(** ** Lines 63-66: the angle list, the pivot and the order *)

(** The list comprehension of line 64, element by element. *)
Fixpoint angles_of_lines (lines : list string) : outcome (list float) :=
  match lines with
  | [] => mret []
  | x :: rest =>
      v ← py_float (PyStr.strip x);
      vs ← angles_of_lines rest;
      mret (round1 v :: vs)
  end.

(** Line 64, on the decoded content of [tilt_file]. *)
Definition parse_angles (tilt_text : string) : outcome (list float) :=
  angles_of_lines (PyStr.readlines tilt_text).

(** [l.index(x)]: the position of the first element equal to [x] ([==]);
    [None] stands for [ValueError]. The elements and [x] are distinct
    objects here, so identity never short-cuts the comparison. *)
Fixpoint index (l : list float) (x : float) : option nat :=
  match l with
  | [] => None
  | y :: l' => if eqb y x then Some O else S <$> index l' x
  end.

(** [list(range(a, b))] *)
Definition range (a b : nat) : list nat := seq a (b - a).

(** Line 66. *)
Definition order_of (start_idx n : nat) : list nat :=
  range start_idx n ++ range 0 start_idx.

(** ** Lines 68-75: the output files *)

(** [target_dir / name], for a relative [name]. *)
Definition joinpath (dir name : string) : string := dir +:+ "/" +:+ name.

(** The f-string of line 72. *)
Definition filename (basename : string) (order_idx : nat) (angle : float) : string :=
  basename +:+ "_" +:+ PyStr.format_03 order_idx
           +:+ "[" +:+ repr angle +:+ "]_fractions.mrc".

Definition filepath (dir basename : string) (order_idx : nat) (angle : float) : string :=
  joinpath dir (filename basename order_idx angle).

Section Split.

(** One 2D slice of the stack; [mrc.data] is a 3D array, the list of its
    slices along axis 0. *)
Context {image : Type}.

(** What [split_mrc] acts on: the MRC files on disk by path, and the
    lines echoed to the terminal. Paths are absolute: [target_dir] is
    given as [str(target_dir.absolute())], a directory other than the
    root, so that the path a file is written to and the path echoed for
    it ([filepath.absolute()], line 75) are the same text. *)
Record world : Type := World {
  files : gmap string image;
  echoed : list string
}.

(** Code with effects on the world, that may raise. What was written
    before an exception stays written. *)
Definition io (A : Type) : Type := world -> outcome A * world.

Definition io_ret {A} (a : A) : io A := fun w => (Returned a, w).

Definition io_bind {A B} (m : io A) (k : A -> io B) : io B :=
  fun w => match m w with
           | (Returned a, w') => k a w'
           | (Raised e, w') => (Raised e, w')
           end.

(** Running code without effects. *)
Definition pure {A} (m : outcome A) : io A := fun w => (m, w).

Definition raise {A} (e : exn) : io A := fun w => (Raised e, w).

Notation "x <- m ;; k" := (io_bind m (fun x => k))
  (at level 100, m at next level, right associativity).
Notation "m ;;; k" := (io_bind m (fun _ => k))
  (at level 100, right associativity).

(** [np.vsplit(data, n_slices)] with [n_slices = data.shape[0]]: the
    slices in storage order; with no slice at all, the division of the
    length by the number of sections raises. *)
Definition vsplit (data : list image) : outcome (list image) :=
  match data with
  | [] => Raised ZeroDivisionError
  | _ => Returned data
  end.

(** [mrcfile.new(path, data)] followed by [close()]: a new file, refused
    ([ValueError]) when the path exists. The file system is taken to
    accept every new path: the [OSError] that [open] raises for a name
    that is too long, a missing or read-only directory or a full disk is
    not embedded. That a run returns is stated under this assumption;
    what is stated of a run that raises names the exception. *)
Definition mrcfile_new (path : string) (data : image) : io unit :=
  fun w =>
    match files w !! path with
    | Some _ => (Raised (ValueError_exists path), w)
    | None => (Returned tt, World (<[path := data]> (files w)) (echoed w))
    end.

Definition click_echo (msg : string) : io unit :=
  fun w => (Returned tt, World (files w) (echoed w ++ [msg])).

(** The body of the loop of line 71. *)
Definition emit (dir basename : string) (t : nat * (image * float)) : io unit :=
  let '(order_idx, (img, angle)) := t in
  let path := filepath dir basename order_idx angle in
  mrcfile_new path img ;;;
  click_echo ("Writing out " +:+ path +:+ "...").

(** The path written and the line echoed by one iteration, and the files
    on disk after iterations that all returned. *)
Definition out_path (dir basename : string) (t : nat * (image * float)) : string :=
  filepath dir basename t.1 t.2.2.

Definition out_msg (dir basename : string) (t : nat * (image * float)) : string :=
  "Writing out " +:+ out_path dir basename t +:+ "...".

Definition files_after (dir basename : string) (ts : list (nat * (image * float)))
    (m : gmap string image) : gmap string image :=
  foldl (fun m t => <[out_path dir basename t := t.2.1]> m) m ts.

Fixpoint for_each {A} (body : A -> io unit) (l : list A) : io unit :=
  match l with
  | [] => io_ret tt
  | x :: l' => body x ;;; for_each body l'
  end.

(** [zip(order, slices, angles)]: as long as the shortest of the three. *)
Definition zip3 (order : list nat) (slices : list image) (angles : list float)
  : list (nat * (image * float)) :=
  zip order (zip slices angles).

(** [split_mrc(mrc_file, meta_file, tilt_file, tilt_series_basename,
    target_dir)]; the three input files are given by their content. *)
Definition split_mrc (mrc : list image) (meta_text tilt_text : string)
    (tilt_series_basename target_dir : string) : io unit :=
  vars <- pure (parse_meta meta_text) ;;
  angles <- pure (parse_angles tilt_text) ;;
  start <- match start_angle vars with
           | Some a => io_ret a
           | None => raise (UnboundLocalError "start_angle")
           end ;;
  i <- match index angles start with
       | Some i => io_ret i
       | None => raise ValueError_index
       end ;;
  let start_idx := (i + 1)%nat in
  let order := order_of start_idx (length angles) in
  slices <- pure (vsplit mrc) ;;
  for_each (emit target_dir tilt_series_basename) (zip3 order slices angles).

End Split.

Arguments world image : clear implicits.
Arguments io image A : clear implicits.

End Glacios.

(* ===================================================================== *)
(** * Scenarios                                                           *)
(* ===================================================================== *)

Module Scenario.

Import Glacios.

(** A text file with the given lines, each ended by a newline. *)
Fixpoint text (lines : list string) : string :=
  match lines with
  | [] => EmptyString
  | l :: rest => l +:+ String PyStr.newline (text rest)
  end.

(** The binary64 nearest to [n / 10^k], negated when [neg]. *)
Definition dec (neg : bool) (n : N) (k : Z) : PyFloat.float :=
  PyFloat.of_decimal neg n (- k).

Definition vars_with (start : PyFloat.float) : locals :=
  Locals (Some start) None None None None.

(** A stack of five frames, each standing for its physical index, and a
    directory without files. *)
Definition frames5 : list nat := [0; 1; 2; 3; 4]%nat.
Definition empty_dir : world nat := World ∅ [].
Definition basename : string := "g_TS_000".
Definition dir : string := "/out".

(** Start angle 0.0, with five or four angles. *)
Definition meta_0 : string := text ["Start tilt angle: 0.0"].
Definition tilt_5 : string := text ["0.0"; "-10.0"; "-20.0"; "10.0"; "20.0"].
Definition tilt_4 : string := text ["0.0"; "-10.0"; "10.0"; "20.0"].

Definition angles_5 : list PyFloat.float :=
  [dec false 0 1; dec true 100 1; dec true 200 1; dec false 100 1; dec false 200 1].
Definition angles_4 : list PyFloat.float :=
  [dec false 0 1; dec true 100 1; dec false 100 1; dec false 200 1].

(** Start angle 3.45, angle list 3.5. *)
Definition meta_345 : string := text ["Start tilt angle 3.45"].
Definition tilt_35 : string := text ["3.5"].

(** The start angle given twice. *)
Definition meta_twice : string :=
  text ["Start tilt angle 1.0"; "Start tilt angle 2.0"].

(** The start angle given without fractional part. *)
Definition meta_int : string := text ["Start tilt angle = 3"].

(** The same, with a decimal number later on the line, and an angle list
    that holds this number. *)
Definition meta_int_step : string := text ["Start tilt angle = 3 deg, step 1.5"].
Definition tilt_15 : string := text ["1.5"; "3.0"].

(** An angle list with a padded line ended by a carriage return and a
    newline, a line ended by a newline and a last line without line end;
    an angle list with a blank line. *)
Definition tilt_mixed : string :=
  " 2.99 " +:+ String PyStr.carriage_return (String PyStr.newline
    ("-59.98" +:+ String PyStr.newline "0.25")).
Definition tilt_blank : string := text ["1.0"; ""].

(** A directory in which the third output file of the first scenario
    exists. *)
Definition taken_dir : world nat :=
  World {["/out/g_TS_000_003[-20.0]_fractions.mrc" := 9%nat]} [].

End Scenario.

(* ===================================================================== *)
(** * [scrape_dir]                                                        *)
(* ===================================================================== *)

Module Scrape.

(** [.] in a pattern: any character but a newline. *)
Definition any_char (c : ascii) : bool := negb (Ascii.eqb c PyStr.newline).

Definition starts_with (p s : string) : bool :=
  match Re.strip_prefix p s with Some _ => true | None => false end.

(** [.ext] at the head of [s]; the dot of line 19-21 is not escaped. *)
Definition dot_ext (ext s : string) : bool :=
  match s with
  | String c s' => any_char c && starts_with ext s'
  | EmptyString => false
  end.

(** [(?:_\d)?.ext] at the head of [s]: with the optional group when that
    leads to a match, else without it. *)
Definition tail_here (ext s : string) : bool :=
  match s with
  | String u (String d s') =>
      Ascii.eqb u "_" && PyStr.is_digit d && dot_ext ext s'
  | _ => false
  end
  || dot_ext ext s.

(** What the optional group of the pattern matches: nothing, or an
    underscore and one digit. *)
Definition is_group (grp : string) : Prop :=
  grp = "" \/ exists d, PyStr.is_digit d = true /\ grp = String "_" (String d "").

(** Line 17 pastes the base name into the pattern as it is, without
    [re.escape]. The characters below have a meaning of their own in a
    pattern; a base name that holds one of them is another pattern (for
    ["t.s"] the dot matches any character), or none at all (["a(b"] does
    not compile). *)
Definition is_special (c : ascii) : bool := PyStr.occurs c ".^$*+?{}[]\|()".

(** A base name that, pasted into a pattern, matches itself and nothing
    else. [match_here], [search] and what is built on them embed the code
    for such a base name only; every statement about them assumes it. *)
Fixpoint literal (basename : string) : bool :=
  match basename with
  | String c rest => negb (is_special c) && literal rest
  | EmptyString => true
  end.

(** The whole pattern at the head of [s], for a [literal] base name. *)
Definition match_here (basename ext s : string) : bool :=
  match Re.strip_prefix basename s with
  | Some rest => tail_here ext rest
  | None => false
  end.

(** [re.compile(f'{basename}(?:_\d)?.{ext}').search(s)] as a truth
    value, for a [literal] base name: is there a match at some position
    of [s]? *)
Fixpoint search (basename ext s : string) : bool :=
  match_here basename ext s
  || match s with
     | String _ s' => search basename ext s'
     | EmptyString => false
     end.

(** The list a path goes to: the first branch of lines 28-33 whose
    pattern matches. *)
Inductive kind : Type := Stack | Params | Angles.

#[export] Instance kind_eq_dec : EqDecision kind.
Proof. solve_decision. Defined.

Definition kind_of (basename f : string) : option kind :=
  if search basename "mrc" f then Some Stack
  else if search basename "txt" f then Some Params
  else if search basename "rawtlt" f then Some Angles
  else None.

(** The three lists of lines 23-25. *)
Record found : Type := Found {
  mrc_files : list string;
  meta_files : list string;
  tilt_files : list string
}.

(** The body of the loop of line 27, on [str(f)]. *)
Definition collect_step (basename : string) (acc : found) (f : string) : found :=
  if search basename "mrc" f then
    Found (mrc_files acc ++ [f]) (meta_files acc) (tilt_files acc)
  else if search basename "txt" f then
    Found (mrc_files acc) (meta_files acc ++ [f]) (tilt_files acc)
  else if search basename "rawtlt" f then
    Found (mrc_files acc) (meta_files acc) (tilt_files acc ++ [f])
  else acc.

Definition collect (basename : string) (listing : list string) : found :=
  foldl (collect_step basename) (Found [] [] []) listing.

(** [list.sort()] on the paths. They are children of one directory, so
    their order as paths is their order as strings, by code point. *)
Definition sort (l : list string) : list string := merge_sort String.le l.

(** [scrape_dir(path, basename)]: [dir_name] is [Path(path).name] and
    [listing] what [Path(path).iterdir()] yields, as strings, in the
    arbitrary order of the file system. The result is the sequence that
    the returned [zip] yields. *)
Definition scrape_dir (dir_name : string) (basename : option string)
    (listing : list string) : list (string * (string * string)) :=
  let basename := default dir_name basename in
  let acc := collect basename listing in
  zip (sort (mrc_files acc)) (zip (sort (meta_files acc)) (sort (tilt_files acc))).

End Scrape.

(* ===================================================================== *)
(** * The words of the specification                                      *)
(* ===================================================================== *)

(** What the statements about [split_mrc] speak of, written down
    independently of the code: these definitions are not used by the
    embedding, the theorems compare the embedding with them. *)

Module Spec.

Import PyFloat Glacios.

(** ** Without surrounding whitespace *)

Fixpoint all_space (s : string) : bool :=
  match s with
  | String c s' => PyStr.is_space c && all_space s'
  | EmptyString => true
  end.

Definition first_char (s : string) : option ascii :=
  match s with
  | String c _ => Some c
  | EmptyString => None
  end.

Fixpoint last_char (s : string) : option ascii :=
  match s with
  | String c EmptyString => Some c
  | String _ s' => last_char s'
  | EmptyString => None
  end.

(** [t] is [s] without its surrounding whitespace: [s] is [t] between
    two runs of whitespace, and [t] neither starts nor ends with
    whitespace. *)
Definition stripped (s t : string) : Prop :=
  (exists a b : string,
     s = a +:+ t +:+ b /\ all_space a = true /\ all_space b = true)
  /\ (forall c, first_char t = Some c -> PyStr.is_space c = false)
  /\ (forall c, last_char t = Some c -> PyStr.is_space c = false).

(** ** Rounded to one decimal place *)

(** [k] tenths are the decimal with one fractional digit nearest to
    [m * 2^e]: [k] is the integer nearest to [10 * m * 2^e], the even
    one when two integers are equally near. *)
Definition nearest_tenths (m : positive) (e : Z) (k : Z) : Prop :=
  if 0 <=? e then k = 10 * Zpos m * 2 ^ e
  else
    let d := 2 ^ (- e) in
    Z.abs (2 * (10 * Zpos m) - 2 * k * d) <= d
    /\ (Z.abs (2 * (10 * Zpos m) - 2 * k * d) = d -> Z.even k = true).

(** [y] is [x] rounded to one decimal place: the binary64 nearest to the
    nearest number of tenths, with the sign of [x]; zeros, infinities and
    NaN are left as they are. *)
Definition rounded_to_tenths (x y : float) : Prop :=
  match x with
  | S754_finite s m e =>
      exists k, 0 <= k /\ nearest_tenths m e k
                /\ y = of_decimal s (Z.to_N k) (-1)
  | _ => y = x
  end.

(** ** A number after a label *)

(** A decimal number (digits, a dot, digits, with or without sign)
    stands in [line] after [label], with no line end in between. *)
Definition number_follows (label line : string) : Prop :=
  exists pre mid g post : string,
    line = pre +:+ label +:+ mid +:+ g +:+ post
    /\ PyStr.occurs PyStr.newline mid = false
    /\ Re.decimal_text g.

(** ** The angle in a file name *)

(** [s] without the [suffix] it ends with. *)
Fixpoint strip_suffix (suffix s : string) : option string :=
  if String.eqb s suffix then Some EmptyString
  else
    match s with
    | String c s' => String c <$> strip_suffix suffix s'
    | EmptyString => None
    end.

(** What follows the last [c] of [s]. *)
Fixpoint after_last (c : ascii) (s : string) : option string :=
  match s with
  | String a s' =>
      match after_last c s' with
      | Some t => Some t
      | None => if Ascii.eqb a c then Some s' else None
      end
  | EmptyString => None
  end.

(** The angle that the name of an output file carries: the text between
    the last ["["] and the final ["]_fractions.mrc"]. *)
Definition angle_text (path : string) : option string :=
  stem ← strip_suffix "]_fractions.mrc" path; after_last "[" stem.

(** The angle of a file name as a number, [float] of its text. *)
Definition angle_value (path : string) : option float :=
  angle_text path ≫= of_string.

(** The text of [a] reads back as [a]: [float(repr(a))] is [a], as
    Python promises of every float. *)
Definition reads_back (a : float) : Prop := of_string (repr a) = Some a.

(** ** The files of a run *)

(** The paths that hold a file in [w'] and held none in [w]. *)
Definition created {image : Type} (w w' : world image) : list string :=
  elements (dom (files w') ∖ dom (files w)).

End Spec.

(* ===================================================================== *)
(** * Properties of [split_mrc]                                           *)
(* ===================================================================== *)

Import Glacios.

Local Open Scope nat_scope.

(** ** The order of line 66 *)

Lemma range_0 (n : nat) : range 0 n = seq 0 n.
Proof. unfold range. by rewrite Nat.sub_0_r. Qed.

Lemma order_of_length (k n : nat) : k ≤ n → length (order_of k n) = n.
Proof.
  intros Hk. unfold order_of, range.
  rewrite length_app, !length_seq. lia.
Qed.

Lemma order_of_perm (k n : nat) : k ≤ n → order_of k n ≡ₚ seq 0 n.
Proof.
  intros Hk. unfold order_of. rewrite range_0. unfold range.
  rewrite Permutation_app_comm.
  replace n with (k + (n - k)) at 2 by lia.
  by rewrite seq_app.
Qed.

Lemma order_of_NoDup (k n : nat) : NoDup (order_of k n).
Proof.
  unfold order_of, range. apply NoDup_app. split_and!.
  - apply NoDup_seq.
  - intros x Hx Hy. apply elem_of_seq in Hx, Hy. lia.
  - apply NoDup_seq.
Qed.

Lemma order_of_lookup (k n i : nat) :
  0 < k ≤ n → i < n → order_of k n !! i = Some ((k + i) mod n).
Proof.
  intros Hk Hi. unfold order_of, range.
  destruct (decide (i < n - k)) as [Hlt|Hge].
  - rewrite lookup_app_l by (rewrite length_seq; lia).
    rewrite lookup_seq_lt by lia.
    by rewrite Nat.mod_small by lia.
  - rewrite lookup_app_r by (rewrite length_seq; lia).
    rewrite length_seq, lookup_seq_lt by lia.
    f_equal.
    apply (Nat.mod_unique _ _ 1); lia.
Qed.

(** C6: for [N >= 1] and a pivot [s < N] (so that line 65 sets
    [start_idx = s + 1]), the order of line 66 is
    [s+1, ..., N-1, 0, ..., s]: position [i] holds [(s + 1 + i) mod N];
    it is a permutation of [0, N) of length [N], it starts at
    [(s + 1) mod N] and ends at [s]; for [N = 1] it is [[0]]. *)
Theorem C6_order_is_rotation (n s : nat) :
  1 ≤ n → s < n →
  order_of (s + 1) n = seq (s + 1) (n - (s + 1)) ++ seq 0 (s + 1)
  ∧ (∀ i, i < n → order_of (s + 1) n !! i = Some ((s + 1 + i) mod n))
  ∧ order_of (s + 1) n ≡ₚ seq 0 n
  ∧ length (order_of (s + 1) n) = n
  ∧ head (order_of (s + 1) n) = Some ((s + 1) mod n)
  ∧ last (order_of (s + 1) n) = Some s
  ∧ (n = 1 → order_of (s + 1) n = [0]).
Proof.
  intros Hn Hs.
  assert (Hlk : ∀ i, i < n → order_of (s + 1) n !! i = Some ((s + 1 + i) mod n))
    by (intros i Hi; apply order_of_lookup; lia).
  split_and!.
  - unfold order_of. by rewrite range_0.
  - exact Hlk.
  - apply order_of_perm. lia.
  - apply order_of_length. lia.
  - rewrite head_lookup, Hlk by lia. by rewrite Nat.add_0_r.
  - rewrite last_lookup, order_of_length by lia.
    rewrite Hlk by lia. f_equal. symmetry.
    apply (Nat.mod_unique _ _ 1); lia.
  - intros ->. assert (s = 0) as -> by lia. reflexivity.
Qed.

Lemma C6_order_is_rotation_witness :
  order_of (0 + 1) 5 = [1; 2; 3; 4; 0] ∧ last (order_of (0 + 1) 5) = Some 0.
Proof.
  destruct (C6_order_is_rotation 5 0) as (H1 & _ & _ & _ & _ & H6 & _); [lia | lia |].
  split; [exact H1 | exact H6].
Defined.

(** ** Exceptions *)

Ltac unfold_outcome :=
  unfold mbind, outcome_bind, mret, outcome_ret in *; simpl in *.

Lemma py_float_Returned (s : string) (v : PyFloat.float) :
  py_float s = Returned v ↔ PyFloat.of_string s = Some v.
Proof. unfold py_float. destruct (PyFloat.of_string s); split; congruence. Qed.

Lemma py_float_raised (s : string) :
  raised (py_float s) ↔ PyFloat.of_string s = None.
Proof. unfold py_float. destruct (PyFloat.of_string s); simpl; split; done. Qed.

(** ** The pivot: [angles.index(start_angle)] *)

Lemma index_Some (angles : list PyFloat.float) (x : PyFloat.float) (i : nat) :
  index angles x = Some i ↔
  (∃ y, angles !! i = Some y ∧ PyFloat.eqb y x = true)
  ∧ (∀ j y, j < i → angles !! j = Some y → PyFloat.eqb y x = false).
Proof.
  revert i. induction angles as [|a angles IH]; intros i; simpl.
  - split; [done | intros [(y & Hy & _) _]; done].
  - destruct (PyFloat.eqb a x) eqn:Ha.
    + split.
      * intros [= <-]. split; [by exists a | intros; lia].
      * intros [_ Hfirst]. destruct i as [|i]; [done |].
        specialize (Hfirst 0 a). rewrite Ha in Hfirst.
        discriminate Hfirst; [lia | done].
    + destruct i as [|i].
      * split.
        -- by destruct (index angles x).
        -- intros [(y & [= <-] & Hy) _]. congruence.
      * rewrite fmap_Some. split.
        -- intros (i' & Hi' & [= ->]). apply IH in Hi' as [Hex Hfirst].
           split; [done |]. intros [|j] y Hj; simpl.
           ++ by intros [= <-].
           ++ apply Hfirst. lia.
        -- intros [Hex Hfirst]. exists i. split; [| done].
           apply IH. split; [done |].
           intros j y Hj Hy. apply (Hfirst (S j) y); [lia | done].
Qed.

Lemma index_None (angles : list PyFloat.float) (x : PyFloat.float) :
  index angles x = None ↔ ∀ y, y ∈ angles → PyFloat.eqb y x = false.
Proof.
  induction angles as [|a angles IH]; simpl.
  - split; [intros _ y Hy; by apply elem_of_nil in Hy | done].
  - destruct (PyFloat.eqb a x) eqn:Ha.
    + split; [done |]. intros H. specialize (H a). rewrite Ha in H.
      discriminate H. by left.
    + rewrite fmap_None, IH. split.
      * intros H y [->|Hy]%elem_of_cons; auto.
      * intros H y Hy. apply H. by right.
Qed.

Lemma index_lt (angles : list PyFloat.float) (x : PyFloat.float) (i : nat) :
  index angles x = Some i → i < length angles.
Proof.
  intros [(y & Hy & _) _]%index_Some. by eapply lookup_lt_Some.
Qed.

(** ** The angle list *)

Lemma angles_of_lines_raised (lines : list string) :
  raised (angles_of_lines lines) ↔
  ∃ x, x ∈ lines ∧ PyFloat.of_string (PyStr.strip x) = None.
Proof.
  induction lines as [|x lines IH]; simpl.
  - split; [done | intros (x & Hx & _); by apply elem_of_nil in Hx].
  - unfold_outcome. unfold py_float.
    destruct (PyFloat.of_string (PyStr.strip x)) as [v|] eqn:Hv; simpl.
    + destruct (angles_of_lines lines) as [vs|e]; simpl in *.
      * split; [done |]. intros (y & [->|Hy]%elem_of_cons & Hnone).
        -- congruence.
        -- apply IH. eauto.
      * split; [| done]. intros _. destruct IH as [IH _].
        destruct IH as (y & Hy & Hnone); [done |].
        exists y. split; [by right | done].
    + split; [| done]. intros _. exists x. split; [by left | done].
Qed.

Lemma angles_of_lines_Returned (lines : list string) (vs : list PyFloat.float) :
  Forall2 (λ x v, PyFloat.of_string (PyStr.strip x) = Some v) lines vs →
  angles_of_lines lines = Returned (map PyFloat.round1 vs).
Proof.
  induction 1 as [|x v lines vs Hv _ IH]; simpl; [done |].
  unfold_outcome. unfold py_float. by rewrite Hv, IH.
Qed.

Lemma angles_of_lines_inv (lines : list string) (angles : list PyFloat.float) :
  angles_of_lines lines = Returned angles →
  ∃ vs, Forall2 (λ x v, PyFloat.of_string (PyStr.strip x) = Some v) lines vs
        ∧ angles = map PyFloat.round1 vs.
Proof.
  revert angles. induction lines as [|x lines IH]; intros angles; simpl.
  - intros [= <-]. by exists [].
  - unfold_outcome. unfold py_float.
    destruct (PyFloat.of_string (PyStr.strip x)) as [v|] eqn:Hv; [| done].
    destruct (angles_of_lines lines) as [vs'|]; [| done].
    intros [= <-]. destruct (IH vs' eq_refl) as (vs & Hvs & ->).
    exists (v :: vs). split; [by constructor | done].
Qed.

(** ** Appending texts *)

Lemma string_app_nil_l (s : string) : "" +:+ s = s.
Proof. reflexivity. Qed.

Lemma string_app_cons (c : ascii) (a b : string) :
  String c a +:+ b = String c (a +:+ b).
Proof. reflexivity. Qed.

Lemma string_app_nil_r (s : string) : s +:+ "" = s.
Proof.
  induction s as [|c s IH]; [done |].
  change (String c (s +:+ "") = String c s). by rewrite IH.
Qed.

Lemma string_app_assoc (a b c : string) : (a +:+ b) +:+ c = a +:+ (b +:+ c).
Proof.
  induction a as [|x a IH]; [done |].
  change (String x ((a +:+ b) +:+ c) = String x (a +:+ (b +:+ c))).
  by rewrite IH.
Qed.

Lemma occurs_app (c : ascii) (a b : string) :
  PyStr.occurs c (a +:+ b) = PyStr.occurs c a || PyStr.occurs c b.
Proof. induction a as [|x a IH]; simpl; [done |]. by rewrite IH, orb_assoc. Qed.

(** ** The lines of a file *)

Lemma split_lines_line (l cur rest : string) :
  PyStr.occurs PyStr.newline l = false →
  PyStr.split_lines cur (l +:+ String PyStr.newline rest)
  = String.rev_app cur (l +:+ String PyStr.newline "")
    :: PyStr.split_lines "" rest.
Proof.
  revert cur. induction l as [|x l IH]; intros cur Hl.
  - rewrite !string_app_nil_l. cbn [PyStr.split_lines String.rev String.rev_app].
    by rewrite Ascii.eqb_refl.
  - cbn [PyStr.occurs] in Hl. apply orb_false_iff in Hl as [Hx Hl].
    change (String x l +:+ String PyStr.newline rest)
      with (String x (l +:+ String PyStr.newline rest)).
    cbn [PyStr.split_lines]. rewrite Ascii.eqb_sym, Hx. by rewrite IH.
Qed.

Lemma split_lines_last (l cur : string) :
  PyStr.occurs PyStr.newline l = false → cur ≠ "" ∨ l ≠ "" →
  PyStr.split_lines cur l = [String.rev_app cur l].
Proof.
  revert cur. induction l as [|x l IH]; intros cur Hl Hne.
  - destruct cur; [by destruct Hne | done].
  - cbn [PyStr.occurs] in Hl. apply orb_false_iff in Hl as [Hx Hl].
    cbn [PyStr.split_lines]. rewrite Ascii.eqb_sym, Hx.
    rewrite IH; [done | done | by left].
Qed.

(** Text without carriage return is read as it is. *)
Lemma universal_newlines_id (s : string) :
  PyStr.occurs PyStr.carriage_return s = false → PyStr.universal_newlines s = s.
Proof.
  induction s as [|c s IH]; [done |]. cbn [PyStr.occurs PyStr.universal_newlines].
  intros [Hc Hs]%orb_false_iff. rewrite Ascii.eqb_sym, Hc. by rewrite IH.
Qed.

(** [readlines] gives the lines of the file, each with its line end; a
    last line that has none is a line too. *)
Lemma readlines_text (s : string) (ls : list string) (last : string) :
  PyStr.universal_newlines s = Scenario.text ls +:+ last →
  Forall (λ l, PyStr.occurs PyStr.newline l = false) ls →
  PyStr.occurs PyStr.newline last = false →
  PyStr.readlines s
  = ((λ l, l +:+ String PyStr.newline "") <$> ls)
    ++ (if decide (last = "") then [] else [last]).
Proof.
  intros Hs Hls Hlast. unfold PyStr.readlines. rewrite Hs. clear Hs.
  induction Hls as [|l ls Hl _ IH].
  - cbn [Scenario.text fmap list_fmap app]. rewrite string_app_nil_l.
    case_decide as Hempty; [by subst |].
    rewrite split_lines_last; [done | done | by right].
  - cbn [Scenario.text]. rewrite string_app_assoc.
    change (String PyStr.newline (Scenario.text ls) +:+ last)
      with (String PyStr.newline (Scenario.text ls +:+ last)).
    rewrite split_lines_line by done. rewrite IH. done.
Qed.

Lemma rstrip_newline (s : string) :
  PyStr.rstrip (s +:+ String PyStr.newline "") = PyStr.rstrip s.
Proof.
  induction s as [|c s IH]; [done |].
  change (String c s +:+ String PyStr.newline "")
    with (String c (s +:+ String PyStr.newline "")).
  cbn [PyStr.rstrip]. by rewrite IH.
Qed.

(** The line end goes with the surrounding whitespace. *)
Lemma strip_newline (s : string) :
  PyStr.strip (s +:+ String PyStr.newline "") = PyStr.strip s.
Proof.
  unfold PyStr.strip. induction s as [|c s IH]; [done |].
  change (String c s +:+ String PyStr.newline "")
    with (String c (s +:+ String PyStr.newline "")).
  cbn [PyStr.lstrip]. destruct (PyStr.is_space c); [exact IH |].
  apply (rstrip_newline (String c s)).
Qed.

(** The list comprehension of line 64 sees a line through [strip]. *)
Lemma angles_of_lines_strip (a b : list string) :
  PyStr.strip <$> a = PyStr.strip <$> b →
  angles_of_lines a = angles_of_lines b.
Proof.
  revert b. induction a as [|x a IH]; intros [|y b] Heq; try done.
  injection Heq as Hxy Hab. cbn [angles_of_lines].
  by rewrite Hxy, (IH b Hab).
Qed.

Lemma parse_angles_text (s : string) (ls : list string) (last : string) :
  PyStr.universal_newlines s = Scenario.text ls +:+ last →
  Forall (λ l, PyStr.occurs PyStr.newline l = false) ls →
  PyStr.occurs PyStr.newline last = false →
  parse_angles s
  = angles_of_lines (ls ++ (if decide (last = "") then [] else [last])).
Proof.
  intros Hs Hls Hlast. unfold parse_angles.
  rewrite (readlines_text s ls last) by done.
  apply angles_of_lines_strip. rewrite !fmap_app. f_equal.
  rewrite <- list_fmap_compose. apply list_fmap_ext.
  intros i l _. apply strip_newline.
Qed.

(** An empty list of angles is an empty file. *)
Lemma split_lines_nil (cur s : string) :
  PyStr.split_lines cur s = [] → cur = "" ∧ s = "".
Proof.
  revert cur. induction s as [|c s IH]; intros cur; cbn [PyStr.split_lines].
  - by destruct cur.
  - destruct (Ascii.eqb c PyStr.newline); [done |].
    intros [? _]%IH. done.
Qed.

Lemma parse_angles_nil (tilt_text : string) :
  parse_angles tilt_text = Returned [] ↔ tilt_text = "".
Proof.
  split; [| by intros ->].
  unfold parse_angles, PyStr.readlines.
  destruct (PyStr.split_lines "" (PyStr.universal_newlines tilt_text))
    as [|x lines] eqn:Hlines.
  - intros _. apply split_lines_nil in Hlines as [_ Hu].
    destruct tilt_text as [|c t]; [done |]. cbn [PyStr.universal_newlines] in Hu.
    destruct (Ascii.eqb c PyStr.carriage_return); [| done].
    destruct t as [|d t]; [done |]. by destruct (Ascii.eqb d PyStr.newline).
  - cbn [angles_of_lines]. unfold_outcome.
    destruct (py_float (PyStr.strip x)); [| done].
    by destruct (angles_of_lines lines).
Qed.

(** ** Rounding to one decimal place *)

Lemma div_half_even_nearest (a d : Z) :
  (0 <= a)%Z → (0 < d)%Z →
  let k := PyFloat.div_half_even a d in
  (0 <= k)%Z
  ∧ (Z.abs (2 * a - 2 * k * d) <= d)%Z
  ∧ (Z.abs (2 * a - 2 * k * d) = d → Z.even k = true).
Proof.
  intros Ha Hd. unfold PyFloat.div_half_even.
  pose proof (Z.div_mod a d ltac:(lia)) as Hdm.
  pose proof (Z.mod_pos_bound a d Hd) as Hr.
  assert (Hq : (0 <= a / d)%Z) by (apply Z.div_pos; lia).
  set (q := (a / d)%Z) in *. set (r := (a mod d)%Z) in *.
  assert (Hq1 : (2 * a - 2 * q * d = 2 * r)%Z) by lia.
  assert (Hq2 : (2 * a - 2 * (q + 1) * d = 2 * r - 2 * d)%Z) by lia.
  destruct (Z.compare_spec (2 * r) d) as [Heq | Hlt | Hgt].
  - destruct (Z.even q) eqn:Heven.
    + rewrite Hq1. split_and!; [lia | lia | done].
    + rewrite Hq2. split_and!; [lia | lia |]. intros _.
      rewrite Z.even_add, Heven. done.
  - rewrite Hq1. split_and!; lia.
  - rewrite Hq2. split_and!; lia.
Qed.

Lemma nearest_div_half_even (a d k : Z) :
  (0 <= a)%Z → (0 < d)%Z →
  (Z.abs (2 * a - 2 * k * d) <= d)%Z →
  (Z.abs (2 * a - 2 * k * d) = d → Z.even k = true) →
  k = PyFloat.div_half_even a d.
Proof.
  intros Ha Hd Hnear Htie. unfold PyFloat.div_half_even.
  pose proof (Z.div_mod a d ltac:(lia)) as Hdm.
  pose proof (Z.mod_pos_bound a d Hd) as Hr.
  set (q := (a / d)%Z) in *. set (r := (a mod d)%Z) in *.
  assert (Hk : k = q ∨ k = (q + 1)%Z) by nia.
  destruct (Z.compare_spec (2 * r) d) as [Heq | Hlt | Hgt].
  - destruct Hk as [-> | ->].
    + rewrite Htie by lia. done.
    + rewrite Z.even_add in Htie.
      destruct (Z.even q); [| done]. discriminate Htie. lia.
  - destruct Hk as [-> | ->]; [done | lia].
  - destruct Hk as [-> | ->]; [lia | done].
Qed.

(** [round(x, 1)] is [x] rounded to one decimal place, and nothing else
    is. *)
Lemma round1_spec (x y : PyFloat.float) :
  Spec.rounded_to_tenths x y ↔ y = PyFloat.round1 x.
Proof.
  destruct x as [s|s| |s m e]; try done.
  unfold Spec.rounded_to_tenths, Spec.nearest_tenths, PyFloat.round1.
  destruct (Z.leb_spec 0 e) as [He|He].
  - split.
    + by intros (k & _ & -> & ->).
    + intros ->. eexists. split_and!; [| done | done].
      apply Z.mul_nonneg_nonneg; [lia |]. by apply Z.pow_nonneg.
  - assert (Hd : (0 < 2 ^ (- e))%Z) by (apply Z.pow_pos_nonneg; lia).
    split.
    + intros (k & Hk & [Hnear Htie] & ->).
      by rewrite (nearest_div_half_even (10 * Z.pos m) (2 ^ (- e)) k) by (done || lia).
    + intros ->.
      destruct (div_half_even_nearest (10 * Z.pos m) (2 ^ (- e)))
        as (H0 & Hnear & Htie); [lia | done |].
      eexists. split_and!; done.
Qed.

(** ** Surrounding whitespace *)

Lemma lstrip_spec (s : string) :
  ∃ a, s = a +:+ PyStr.lstrip s ∧ Spec.all_space a = true
       ∧ ∀ c, Spec.first_char (PyStr.lstrip s) = Some c → PyStr.is_space c = false.
Proof.
  induction s as [|c s (a & Hs & Ha & Hfirst)].
  - by exists "".
  - cbn [PyStr.lstrip]. destruct (PyStr.is_space c) eqn:Hc.
    + exists (String c a). rewrite string_app_cons, <- Hs.
      split_and!; [done | | done]. simpl. by rewrite Hc, Ha.
    + exists "". split_and!; [done | done |]. by intros c' [= <-].
Qed.

Lemma rstrip_spec (s : string) :
  ∃ b, s = PyStr.rstrip s +:+ b ∧ Spec.all_space b = true
       ∧ ∀ c, Spec.last_char (PyStr.rstrip s) = Some c → PyStr.is_space c = false.
Proof.
  induction s as [|c s (b & Hs & Hb & Hlast)].
  - by exists "".
  - cbn [PyStr.rstrip]. destruct (PyStr.rstrip s) as [|d r] eqn:Hr.
    + rewrite string_app_nil_l in Hs. subst b.
      destruct (PyStr.is_space c) eqn:Hc.
      * exists (String c s). split_and!; [done | | done]. simpl. by rewrite Hc, Hb.
      * exists s. split_and!; [done | done |]. by intros c' [= <-].
    + exists b. split_and!; [by rewrite Hs at 1 | done | exact Hlast].
Qed.

Lemma rstrip_first (c : ascii) (r : string) :
  PyStr.is_space c = false →
  Spec.first_char (PyStr.rstrip (String c r)) = Some c.
Proof.
  intros Hc. cbn [PyStr.rstrip]. destruct (PyStr.rstrip r); [| done].
  by rewrite Hc.
Qed.

(** [strip] takes the whitespace off both ends, and nothing else. *)
Lemma strip_spec (s : string) : Spec.stripped s (PyStr.strip s).
Proof.
  unfold PyStr.strip.
  destruct (lstrip_spec s) as (a & Hs & Ha & Hfirst).
  destruct (rstrip_spec (PyStr.lstrip s)) as (b & Hl & Hb & Hlast).
  split_and!.
  - exists a, b. split_and!; [| done | done]. by rewrite <- Hl.
  - destruct (PyStr.lstrip s) as [|c r]; [done |].
    intros c'. rewrite rstrip_first by (by apply Hfirst).
    intros [= <-]. by apply Hfirst.
  - exact Hlast.
Qed.

(** C8: [parse_angles] (line 64) reads one number per line of the file,
    in file order: the lines are what stands between the line ends (a
    newline, with or without a carriage return before it, or a carriage
    return alone; a last line needs none); the number of a line is
    [float] of the line without its surrounding whitespace, rounded to
    one decimal place.
    It fails exactly when some line, stripped, is not the text of a
    float (a blank line is not), and returns otherwise. *)
Theorem C8_parse_angles (tilt_text : string) (ls : list string) (last : string) :
  PyStr.universal_newlines tilt_text = Scenario.text ls +:+ last →
  Forall (λ l, PyStr.occurs PyStr.newline l = false) ls →
  PyStr.occurs PyStr.newline last = false →
  let lines := ls ++ (if decide (last = "") then [] else [last]) in
  (PyStr.occurs PyStr.carriage_return tilt_text = false →
     tilt_text = Scenario.text ls +:+ last)
  ∧ PyStr.readlines tilt_text
    = ((λ l, l +:+ String PyStr.newline "") <$> ls)
      ++ (if decide (last = "") then [] else [last])
  ∧ (raised (parse_angles tilt_text) ↔
       ∃ l, l ∈ lines ∧ PyFloat.of_string (PyStr.strip l) = None)
  ∧ (∀ angles, parse_angles tilt_text = Returned angles ↔
       ∃ vs, Forall2 (λ l v, PyFloat.of_string (PyStr.strip l) = Some v) lines vs
             ∧ angles = PyFloat.round1 <$> vs)
  ∧ (∀ angles, parse_angles tilt_text = Returned angles →
       length angles = length lines)
  ∧ ((∀ l, l ∈ lines → is_Some (PyFloat.of_string (PyStr.strip l))) →
     ∃ angles, parse_angles tilt_text = Returned angles)
  ∧ (∀ l, Spec.stripped l (PyStr.strip l))
  ∧ (∀ v y, Spec.rounded_to_tenths v y ↔ y = PyFloat.round1 v)
  ∧ (∀ angles a, parse_angles tilt_text = Returned angles → a ∈ angles →
       ∃ l v, l ∈ lines ∧ PyFloat.of_string (PyStr.strip l) = Some v
              ∧ Spec.rounded_to_tenths v a).
Proof.
  intros Hs Hls Hlast lines.
  rewrite (parse_angles_text tilt_text ls last) by done. fold lines.
  split_and!.
  - intros Hcr. by rewrite <- Hs, universal_newlines_id.
  - by apply readlines_text.
  - apply angles_of_lines_raised.
  - intros angles. split.
    + apply angles_of_lines_inv.
    + intros (vs & Hvs & ->). by apply angles_of_lines_Returned.
  - intros angles (vs & Hvs & ->)%angles_of_lines_inv.
    rewrite length_map. symmetry. by eapply Forall2_length.
  - intros Hall.
    destruct (angles_of_lines lines) as [angles|e] eqn:Hrun; [by eexists |].
    assert (Hraised : raised (angles_of_lines lines)) by by rewrite Hrun.
    apply angles_of_lines_raised in Hraised as (x & Hx & Hnone).
    destruct (Hall x Hx) as [v Hv]. congruence.
  - apply strip_spec.
  - apply round1_spec.
  - intros angles a (vs & Hvs & ->)%angles_of_lines_inv Ha.
    apply list_elem_of_fmap in Ha as (v & -> & Hv).
    apply list_elem_of_lookup_1 in Hv as [i Hi].
    destruct (Forall2_lookup_r _ _ _ _ _ Hvs Hi) as (l & Hl & Hlv).
    exists l, v. split_and!; [by eapply list_elem_of_lookup_2 | done |].
    by apply round1_spec.
Qed.

(** ** Text *)

Lemma app_sep_inj (c : ascii) (a b r1 r2 : string) :
  PyStr.occurs c a = false → PyStr.occurs c b = false →
  a +:+ String c r1 = b +:+ String c r2 → a = b.
Proof.
  revert b. induction a as [|x a IH]; intros [|y b]; simpl; try done.
  - intros _ Hb [= <- _]. by rewrite Ascii.eqb_refl in Hb.
  - intros Ha _ [= -> _]. by rewrite Ascii.eqb_refl in Ha.
  - intros [_ Ha]%orb_false_iff [_ Hb]%orb_false_iff [= -> Heq].
    f_equal. by apply IH.
Qed.

Lemma all_digits_app (a b : string) :
  PyStr.all_digits (a +:+ b) = PyStr.all_digits a && PyStr.all_digits b.
Proof. induction a as [|x a IH]; simpl; [done |]. by rewrite IH, andb_assoc. Qed.

Lemma all_digits_zeros (n : nat) : PyStr.all_digits (PyStr.zeros n) = true.
Proof. induction n; simpl; done. Qed.

Lemma all_digits_string_of_uint (d : Decimal.uint) :
  PyStr.all_digits (NilEmpty.string_of_uint d) = true.
Proof. induction d; simpl; done. Qed.

Lemma all_digits_format_03 (n : nat) : PyStr.all_digits (PyStr.format_03 n) = true.
Proof.
  unfold PyStr.format_03, PyStr.str_of_nat.
  by rewrite all_digits_app, all_digits_zeros, all_digits_string_of_uint.
Qed.

Lemma all_digits_occurs (c : ascii) (s : string) :
  PyStr.is_digit c = false → PyStr.all_digits s = true → PyStr.occurs c s = false.
Proof.
  intros Hc. induction s as [|x s IH]; simpl; [done |].
  intros [Hx Hs]%andb_true_iff. rewrite IH by done.
  destruct (Ascii.eqb_spec c x) as [->|]; [congruence | done].
Qed.

Lemma nat_of_str_zeros (k : nat) (s : string) :
  PyStr.nat_of_str (PyStr.zeros k +:+ s) = PyStr.nat_of_str s.
Proof.
  unfold PyStr.nat_of_str. induction k as [|k IH]; simpl; [done |].
  rewrite <- IH. by destruct (NilEmpty.uint_of_string _).
Qed.

(** [int(f'{n:03}') == n] *)
Lemma nat_of_str_format_03 (n : nat) :
  PyStr.nat_of_str (PyStr.format_03 n) = Some n.
Proof.
  unfold PyStr.format_03. rewrite nat_of_str_zeros.
  unfold PyStr.nat_of_str, PyStr.str_of_nat.
  rewrite NilEmpty.usu. simpl. by rewrite DecimalNat.Unsigned.of_to.
Qed.

Lemma format_03_inj (i j : nat) : PyStr.format_03 i = PyStr.format_03 j → i = j.
Proof.
  intros H. apply (f_equal PyStr.nat_of_str) in H.
  rewrite !nat_of_str_format_03 in H. congruence.
Qed.

(** Two file names of one series with different order indices differ,
    whatever the angles are. *)
Lemma filename_inj (basename : string) (i j : nat) (a b : PyFloat.float) :
  filename basename i a = filename basename j b → i = j.
Proof.
  unfold filename. intros H.
  apply (inj (String.app basename)) in H. simpl in H.
  injection H as H. apply format_03_inj.
  apply (app_sep_inj "[" _ _ _ _) in H; [done | |];
    by apply all_digits_occurs, all_digits_format_03.
Qed.

Lemma filepath_inj (dir basename : string) (i j : nat) (a b : PyFloat.float) :
  filepath dir basename i a = filepath dir basename j b → i = j.
Proof.
  unfold filepath, joinpath. intros H.
  apply (inj (String.app dir)) in H. simpl in H. injection H as H.
  by apply filename_inj in H.
Qed.

(** ** The angle in a file name *)

Lemma all_digits_substring (n m : nat) (s : string) :
  PyStr.all_digits s = true → PyStr.all_digits (substring n m s) = true.
Proof.
  revert n m. induction s as [|c s IH]; intros [|n] [|m]; simpl; try done.
  - intros [Hc Hs]%andb_true_iff. by rewrite Hc, IH.
  - intros [_ Hs]%andb_true_iff. by apply IH.
  - intros [_ Hs]%andb_true_iff. by apply IH.
Qed.

Lemma shortest_digits_digits (m : positive) (e : Z) :
  PyStr.all_digits (PyFloat.shortest_digits m e).1 = true.
Proof.
  unfold PyFloat.shortest_digits.
  destruct (PyFloat.shortest_from _ _ _ _ _ _) as [c scale].
  destruct (PyFloat.strip_zeros _ _ _) as [c' scale'].
  apply all_digits_string_of_uint.
Qed.

Lemma format_exponent_no_bracket (e : Z) :
  PyStr.occurs "[" (PyFloat.format_exponent e) = false.
Proof.
  unfold PyFloat.format_exponent. rewrite !occurs_app.
  rewrite (all_digits_occurs "[" (PyStr.zeros _)) by (done || apply all_digits_zeros).
  rewrite (all_digits_occurs "[" (NilEmpty.string_of_uint _))
    by (done || apply all_digits_string_of_uint).
  by destruct (e <? 0)%Z.
Qed.

Lemma format_digits_no_bracket (ds : string) (decpt : Z) :
  PyStr.all_digits ds = true →
  PyStr.occurs "[" (PyFloat.format_digits ds decpt) = false.
Proof.
  intros Hds.
  assert (Hd : ∀ s, PyStr.all_digits s = true → PyStr.occurs "[" s = false)
    by (intros s; by apply all_digits_occurs).
  unfold PyFloat.format_digits.
  destruct ((decpt <=? -4)%Z || (16 <? decpt)%Z).
  - destruct ds as [|d [|d' rest]]; [done | |].
    + rewrite occurs_app, format_exponent_no_bracket, Hd; done.
    + rewrite occurs_app, format_exponent_no_bracket, orb_false_r.
      simpl in Hds. apply andb_true_iff in Hds as [Hd1 Hds].
      change (String d ("." +:+ String d' rest))
        with (String d "" +:+ "." +:+ String d' rest).
      rewrite !occurs_app, (Hd (String d "")), (Hd (String d' rest)); try done.
      simpl. by rewrite Hd1.
  - destruct (decpt <=? 0)%Z.
    + rewrite !occurs_app, (Hd (PyStr.zeros _)), (Hd ds);
        done || apply all_digits_zeros.
    + destruct (Z.of_nat (String.length ds) <=? decpt)%Z.
      * rewrite !occurs_app, (Hd (PyStr.zeros _)), (Hd ds);
          done || apply all_digits_zeros.
      * rewrite !occurs_app, (Hd (substring 0 _ ds)),
          (Hd (substring (Z.to_nat decpt) _ ds));
          done || by apply all_digits_substring.
Qed.

(** The text of a float holds no bracket. *)
Lemma repr_no_bracket (x : PyFloat.float) :
  PyStr.occurs "[" (PyFloat.repr x) = false.
Proof.
  destruct x as [s|s| |s m e]; [by destruct s | by destruct s | done |].
  unfold PyFloat.repr.
  pose proof (shortest_digits_digits m e) as Hds.
  destruct (PyFloat.shortest_digits m e) as [ds decpt]. simpl in Hds.
  rewrite occurs_app, format_digits_no_bracket by done.
  by destruct s.
Qed.

Lemma string_length_app (a b : string) :
  String.length (a +:+ b) = String.length a + String.length b.
Proof.
  induction a as [|c a IH]; [done |].
  rewrite string_app_cons. simpl. by rewrite IH.
Qed.

Lemma strip_suffix_eq (suffix s : string) :
  Spec.strip_suffix suffix s =
    if String.eqb s suffix then Some EmptyString
    else
      match s with
      | String c s' => String c <$> Spec.strip_suffix suffix s'
      | EmptyString => None
      end.
Proof. by destruct s. Qed.

Lemma strip_suffix_app (a suffix : string) :
  Spec.strip_suffix suffix (a +:+ suffix) = Some a.
Proof.
  induction a as [|c a IH].
  - by rewrite string_app_nil_l, strip_suffix_eq, String.eqb_refl.
  - rewrite string_app_cons, strip_suffix_eq, IH.
    destruct (String.eqb_spec (String c (a +:+ suffix)) suffix) as [Heq|]; [| done].
    apply (f_equal String.length) in Heq. simpl in Heq.
    rewrite string_length_app in Heq. lia.
Qed.

Lemma after_last_None (c : ascii) (s : string) :
  PyStr.occurs c s = false → Spec.after_last c s = None.
Proof.
  induction s as [|a s IH]; [done |]. cbn [PyStr.occurs Spec.after_last].
  intros [Hca Hs]%orb_false_iff. rewrite IH by done.
  by rewrite Ascii.eqb_sym, Hca.
Qed.

Lemma after_last_app (c : ascii) (a t : string) :
  PyStr.occurs c t = false → Spec.after_last c (a +:+ String c t) = Some t.
Proof.
  intros Ht. induction a as [|x a IH].
  - rewrite string_app_nil_l. cbn [Spec.after_last].
    by rewrite after_last_None, Ascii.eqb_refl.
  - rewrite string_app_cons. cbn [Spec.after_last]. by rewrite IH.
Qed.

(** The name of an output file carries the text of its angle. *)
Lemma angle_text_filepath (dir basename : string) (i : nat) (a : PyFloat.float) :
  Spec.angle_text (filepath dir basename i a) = Some (PyFloat.repr a).
Proof.
  unfold Spec.angle_text, filepath, joinpath, filename.
  replace (dir +:+ "/" +:+ basename +:+ "_" +:+ PyStr.format_03 i +:+ "["
               +:+ PyFloat.repr a +:+ "]_fractions.mrc")
    with ((dir +:+ "/" +:+ basename +:+ "_" +:+ PyStr.format_03 i +:+ "["
               +:+ PyFloat.repr a) +:+ "]_fractions.mrc")
    by (by rewrite !string_app_assoc).
  rewrite strip_suffix_app. simpl.
  replace (dir +:+ "/" +:+ basename +:+ "_" +:+ PyStr.format_03 i +:+ "["
               +:+ PyFloat.repr a)
    with ((dir +:+ "/" +:+ basename +:+ "_" +:+ PyStr.format_03 i)
               +:+ String "[" (PyFloat.repr a))
    by (by rewrite !string_app_assoc).
  apply after_last_app, repr_no_bracket.
Qed.

(** ** The loop of line 71 *)

Section Run.

Context {image : Type}.
Implicit Types (w : world image) (ts : list (nat * (image * PyFloat.float))).
Implicit Types (mrc : list image) (angles : list PyFloat.float).

Lemma out_path_inj (dir basename : string) (t t' : nat * (image * PyFloat.float)) :
  out_path dir basename t = out_path dir basename t' → t.1 = t'.1.
Proof. apply filepath_inj. Qed.

Lemma out_path_NoDup (dir basename : string) ts :
  NoDup ts.*1 → NoDup (out_path dir basename <$> ts).
Proof.
  induction ts as [|t ts IH]; simpl; [constructor |].
  intros [Hnotin Hnodup]%NoDup_cons. apply NoDup_cons. split; [| auto].
  intros (t' & Heq & Hin)%list_elem_of_fmap. apply Hnotin.
  apply out_path_inj in Heq. rewrite Heq.
  by apply list_elem_of_fmap_2.
Qed.

Lemma zip3_fst (order : list nat) mrc angles :
  (zip3 order mrc angles).*1 = take (length (zip mrc angles)) order.
Proof.
  unfold zip3. generalize (zip mrc angles) as k.
  induction order as [|o order IH]; intros [|x k]; simpl; try done.
  by rewrite IH.
Qed.

Lemma zip3_NoDup_fst (order : list nat) mrc angles :
  NoDup order → NoDup (zip3 order mrc angles).*1.
Proof.
  intros H. rewrite zip3_fst.
  eapply sublist_NoDup; [| apply sublist_take]. done.
Qed.

Lemma zip_fst_take {A B} (l : list A) (k : list B) :
  (zip l k).*1 = take (length k) l.
Proof.
  revert k. induction l as [|x l IH]; intros [|y k]; simpl; try done.
  by rewrite IH.
Qed.

Lemma zip_snd_take {A B} (l : list A) (k : list B) :
  (zip l k).*2 = take (length l) k.
Proof.
  revert k. induction l as [|x l IH]; intros [|y k]; simpl; try done.
  by rewrite IH.
Qed.

Lemma zip3_length (order : list nat) mrc angles :
  length order = length angles →
  length (zip3 order mrc angles) = length angles `min` length mrc.
Proof. intros H. unfold zip3. rewrite !length_zip_with. lia. Qed.

Lemma zip3_angles (order : list nat) mrc angles :
  length order = length angles → length mrc = length angles →
  (zip3 order mrc angles).*2.*2 = angles.
Proof.
  intros H1 H2. unfold zip3.
  rewrite snd_zip by (rewrite length_zip_with; lia).
  rewrite snd_zip by lia. done.
Qed.

Lemma zip3_images (order : list nat) mrc angles :
  length order = length angles → length mrc = length angles →
  (zip3 order mrc angles).*2.*1 = mrc.
Proof.
  intros H1 H2. unfold zip3.
  rewrite snd_zip by (rewrite length_zip_with; lia).
  rewrite fst_zip by lia. done.
Qed.

Lemma emit_fresh (dir basename : string) (t : nat * (image * PyFloat.float)) w :
  files w !! out_path dir basename t = None →
  emit dir basename t w =
    (Returned tt, World (<[out_path dir basename t := t.2.1]> (files w))
                        (echoed w ++ [out_msg dir basename t])).
Proof.
  destruct t as [i [img a]]. unfold emit, io_bind, mrcfile_new, click_echo, out_path.
  simpl. by intros ->.
Qed.

Lemma emit_exists (dir basename : string) (t : nat * (image * PyFloat.float)) w :
  is_Some (files w !! out_path dir basename t) →
  emit dir basename t w = (Raised (ValueError_exists (out_path dir basename t)), w).
Proof.
  destruct t as [i [img a]]. unfold emit, io_bind, mrcfile_new, out_path.
  simpl. by intros [x ->].
Qed.

(** When no file of the series exists yet, every iteration returns: the
    files are created one after the other and nothing is overwritten. *)
Lemma for_each_emit_fresh (dir basename : string) ts w :
  NoDup ts.*1 →
  (∀ t, t ∈ ts → files w !! out_path dir basename t = None) →
  for_each (emit dir basename) ts w =
    (Returned tt, World (files_after dir basename ts (files w))
                        (echoed w ++ (out_msg dir basename <$> ts))).
Proof.
  revert w. induction ts as [|t ts IH]; intros w Hnodup Hfresh; simpl.
  - unfold io_ret. rewrite app_nil_r. by destruct w.
  - apply NoDup_cons in Hnodup as [Hnotin Hnodup].
    unfold io_bind. rewrite emit_fresh by (apply Hfresh; by left).
    rewrite IH; simpl.
    + by rewrite <- app_assoc.
    + done.
    + intros t' Hin. rewrite lookup_insert_ne; [apply Hfresh; by right |].
      intros Heq%out_path_inj. apply Hnotin. rewrite Heq.
      by apply list_elem_of_fmap_2.
Qed.

Lemma files_after_lookup (dir basename : string) ts (m : gmap string image)
    (k : nat) (t : nat * (image * PyFloat.float)) :
  NoDup ts.*1 → ts !! k = Some t →
  files_after dir basename ts m !! out_path dir basename t = Some t.2.1.
Proof.
  unfold files_after. revert m k.
  induction ts as [|t0 ts IH]; intros m k Hnodup Hk; [done |].
  apply NoDup_cons in Hnodup as [Hnotin Hnodup]. simpl.
  destruct k as [|k]; simpl in Hk.
  - injection Hk as ->. clear IH.
    assert (Hkeep : ∀ m' : gmap string image, m' !! out_path dir basename t = Some t.2.1 →
      foldl (λ m t0, <[out_path dir basename t0 := t0.2.1]> m) m' ts
        !! out_path dir basename t = Some t.2.1).
    { induction ts as [|t1 ts IH]; intros m' Hm'; simpl; [done |].
      apply not_elem_of_cons in Hnotin as [Hne Hnotin].
      apply NoDup_cons in Hnodup as [_ Hnodup].
      apply IH; [done | done |].
      rewrite lookup_insert_ne; [done |].
      intros Heq%out_path_inj. congruence. }
    apply Hkeep. by rewrite lookup_insert_eq.
  - by eapply IH.
Qed.

Lemma files_after_other (dir basename : string) ts (m : gmap string image)
    (path : string) :
  path ∉ (out_path dir basename <$> ts) →
  files_after dir basename ts m !! path = m !! path.
Proof.
  unfold files_after. revert m. induction ts as [|t ts IH]; intros m; simpl; [done |].
  intros [Hne Hnotin]%not_elem_of_cons.
  rewrite IH by done. by rewrite lookup_insert_ne.
Qed.

Lemma files_after_dom (dir basename : string) ts (m : gmap string image) :
  dom (files_after dir basename ts m) =
    dom m ∪ list_to_set (out_path dir basename <$> ts).
Proof.
  unfold files_after. revert m. induction ts as [|t ts IH]; intros m; simpl.
  - set_solver.
  - rewrite IH, dom_insert_L. set_solver.
Qed.

(** ** [split_mrc] as a whole *)

(** Up to the loop, [split_mrc] has no effect: it raises, or reaches the
    loop with the triples of line 71. *)
Lemma split_mrc_loop mrc (meta_text tilt_text basename dir : string) w
    (vars : locals) angles (start : PyFloat.float) (i : nat) :
  parse_meta meta_text = Returned vars → start_angle vars = Some start →
  parse_angles tilt_text = Returned angles → index angles start = Some i →
  mrc ≠ [] →
  split_mrc mrc meta_text tilt_text basename dir w =
    for_each (emit dir basename)
      (zip3 (order_of (i + 1) (length angles)) mrc angles) w.
Proof.
  intros Hmeta Hstart Hangles Hidx Hmrc.
  unfold split_mrc, io_bind, pure, io_ret.
  rewrite Hmeta, Hangles, Hstart, Hidx.
  destruct mrc; [done | reflexivity].
Qed.

(** The loop stops at the first triple whose path exists: the triples
    before it are written and echoed, nothing after it is. *)
Lemma for_each_emit_prefix (dir basename : string) ts w :
  ∃ k, k ≤ length ts
    ∧ (∀ t, t ∈ take k ts → files w !! out_path dir basename t = None)
    ∧ (for_each (emit dir basename) ts w).2
      = World (files_after dir basename (take k ts) (files w))
              (echoed w ++ (out_msg dir basename <$> take k ts))
    ∧ match (for_each (emit dir basename) ts w).1 with
      | Returned _ => k = length ts
      | Raised e =>
          ∃ t, ts !! k = Some t ∧ e = ValueError_exists (out_path dir basename t)
               ∧ is_Some (files_after dir basename (take k ts) (files w)
                            !! out_path dir basename t)
      end.
Proof.
  revert w. induction ts as [|t ts IH]; intros w.
  - exists 0. simpl. split_and!; [done | by intros t Ht; apply elem_of_nil in Ht | | done].
    unfold io_ret. simpl. rewrite app_nil_r. by destruct w.
  - destruct (files w !! out_path dir basename t) as [x|] eqn:Hlook.
    + exists 0. cbn [for_each]. unfold io_bind.
      rewrite emit_exists by (by rewrite Hlook). simpl.
      split_and!; [lia | by intros t' Ht'; apply elem_of_nil in Ht' | | ].
      * rewrite app_nil_r. by destruct w.
      * exists t. split_and!; [done | done |]. unfold files_after. simpl.
        by rewrite Hlook.
    + cbn [for_each]. unfold io_bind. rewrite emit_fresh by done.
      destruct (IH (World (<[out_path dir basename t := t.2.1]> (files w))
                          (echoed w ++ [out_msg dir basename t])))
        as (k & Hk & Hfresh & Hw & Hres).
      exists (S k). simpl in *. split_and!.
      * lia.
      * intros t' [-> | Hin]%elem_of_cons; [done |].
        specialize (Hfresh t' Hin).
        destruct (decide (out_path dir basename t = out_path dir basename t')) as [Heq|Hne].
        -- by rewrite Heq, lookup_insert_eq in Hfresh.
        -- by rewrite lookup_insert_ne in Hfresh.
      * rewrite Hw. unfold files_after. simpl. by rewrite <- app_assoc.
      * destruct (for_each (emit dir basename) ts _).1; [lia | done].
Qed.

(** C3 (as the code has it): when the number of angles and the number of
    frames disagree, no bounds error is raised. With the pivot found, at
    least one frame and no output path taken, [split_mrc] returns after
    writing [min N F] files: the first [min N F] frames, under the first
    [min N F] angles. *)
Theorem C3_mismatch_truncates mrc (meta_text tilt_text basename dir : string) w
    (vars : locals) angles (start : PyFloat.float) (i : nat) :
  parse_meta meta_text = Returned vars → start_angle vars = Some start →
  parse_angles tilt_text = Returned angles → index angles start = Some i →
  mrc ≠ [] →
  let ts := zip3 (order_of (i + 1) (length angles)) mrc angles in
  (∀ t, t ∈ ts → files w !! out_path dir basename t = None) →
  split_mrc mrc meta_text tilt_text basename dir w =
    (Returned tt, World (files_after dir basename ts (files w))
                        (echoed w ++ (out_msg dir basename <$> ts)))
  ∧ length ts = length angles `min` length mrc
  ∧ ts.*2.*1 = take (length angles) mrc
  ∧ ts.*2.*2 = take (length mrc) angles.
Proof.
  intros Hmeta Hstart Hangles Hidx Hmrc ts Hfresh.
  pose proof (index_lt _ _ _ Hidx) as Hi.
  assert (Hlen : length (order_of (i + 1) (length angles)) = length angles)
    by (apply order_of_length; lia).
  split_and!.
  - rewrite (split_mrc_loop _ _ _ _ _ _ _ _ _ _ Hmeta Hstart Hangles Hidx Hmrc).
    apply for_each_emit_fresh; [| done].
    apply zip3_NoDup_fst, order_of_NoDup.
  - by apply zip3_length.
  - unfold ts, zip3. rewrite zip_snd_take, fmap_take, zip_fst_take.
    rewrite Hlen, take_take. f_equal. lia.
  - unfold ts, zip3. rewrite zip_snd_take, fmap_take, zip_snd_take.
    rewrite Hlen, take_take.
    destruct (decide (length mrc ≤ length angles)) as [Hle|Hgt].
    + f_equal. lia.
    + rewrite !take_ge by lia. done.
Qed.

(** C9: when there are as many frames as angles and the pivot is found,
    the loop of line 71 runs over [N] triples whose paths are pairwise
    distinct; started where none of these paths exists, [split_mrc]
    returns and each path holds the frame written to it. *)
Theorem C9_paths_distinct mrc (meta_text tilt_text basename dir : string)
    (vars : locals) angles (start : PyFloat.float) (i : nat) :
  parse_meta meta_text = Returned vars → start_angle vars = Some start →
  parse_angles tilt_text = Returned angles → index angles start = Some i →
  length mrc = length angles →
  let ts := zip3 (order_of (i + 1) (length angles)) mrc angles in
  length ts = length angles
  ∧ ts.*1 ≡ₚ seq 0 (length angles)
  ∧ NoDup (out_path dir basename <$> ts)
  ∧ ∀ w, (∀ t, t ∈ ts → files w !! out_path dir basename t = None) →
      ∃ w', split_mrc mrc meta_text tilt_text basename dir w = (Returned tt, w')
            ∧ ∀ k t, ts !! k = Some t →
                files w' !! out_path dir basename t = Some t.2.1.
Proof.
  intros Hmeta Hstart Hangles Hidx Hmrc ts.
  pose proof (index_lt _ _ _ Hidx) as Hi.
  assert (Hlen : length (order_of (i + 1) (length angles)) = length angles)
    by (apply order_of_length; lia).
  assert (Hnodup : NoDup ts.*1) by apply zip3_NoDup_fst, order_of_NoDup.
  split_and!.
  - unfold ts. rewrite zip3_length by done. lia.
  - unfold ts, zip3. rewrite fst_zip by (rewrite length_zip_with; lia).
    apply order_of_perm. lia.
  - by apply out_path_NoDup.
  - intros w Hfresh. eexists. split.
    + rewrite (split_mrc_loop _ _ _ _ _ _ _ _ _ _ Hmeta Hstart Hangles Hidx)
        by (intros ->; destruct angles; simpl in *; lia).
      by apply for_each_emit_fresh.
    + intros k t Hk. simpl. by eapply files_after_lookup.
Qed.

(** The files that a run of the loop leaves behind, and the angles in
    their names. *)
Lemma created_files_after (dir basename : string) ts w (echo : list string) :
  NoDup ts.*1 →
  (∀ t, t ∈ ts → files w !! out_path dir basename t = None) →
  Spec.created w (World (files_after dir basename ts (files w)) echo)
  ≡ₚ out_path dir basename <$> ts.
Proof.
  intros Hnodup Hfresh. unfold Spec.created. simpl.
  rewrite files_after_dom.
  assert (Hset : (dom (files w) ∪ list_to_set (out_path dir basename <$> ts))
                   ∖ dom (files w)
                 = list_to_set (C := gset string) (out_path dir basename <$> ts)).
  { apply set_eq. intros p.
    rewrite elem_of_difference, elem_of_union, elem_of_list_to_set, elem_of_dom.
    split; [naive_solver |]. intros Hp. split; [by right |].
    apply list_elem_of_fmap in Hp as (t & -> & Ht).
    rewrite (Hfresh t Ht). by intros [? ?]. }
  rewrite Hset. apply elements_list_to_set. by apply out_path_NoDup.
Qed.

Lemma angle_text_out_path (dir basename : string) ts :
  Spec.angle_text <$> (out_path dir basename <$> ts)
  = Some ∘ PyFloat.repr <$> ts.*2.*2.
Proof.
  rewrite <- !list_fmap_compose. apply list_fmap_ext.
  intros k t _. apply angle_text_filepath.
Qed.

Lemma angle_value_reads_back (dir basename : string) ts :
  Forall Spec.reads_back ts.*2.*2 →
  Spec.angle_value <$> (out_path dir basename <$> ts) = Some <$> ts.*2.*2.
Proof.
  induction ts as [|t ts IH]; [done |].
  rewrite !fmap_cons. intros [Ht Hts]%Forall_cons.
  rewrite IH by done. f_equal.
  unfold Spec.angle_value, out_path. rewrite angle_text_filepath. exact Ht.
Qed.

(** C7 (as the code has it): when there are as many frames as angles
    and the pivot is found, a run into a directory that holds none of
    the output paths returns, and the angles that the names of the files
    it created carry are, as a multiset, the texts of the parsed angles
    (the numbers of the lines rounded to one decimal place): one file per
    angle; read back as numbers they are the parsed angles, wherever the
    text of a float reads back as the float. When one of the output
    paths exists, the run raises at the first such path: the files
    created carry the angles before it only. *)
Theorem C7_angles_preserved mrc (meta_text tilt_text basename dir : string)
    (vars : locals) angles (start : PyFloat.float) (i : nat) :
  parse_meta meta_text = Returned vars → start_angle vars = Some start →
  parse_angles tilt_text = Returned angles → index angles start = Some i →
  length mrc = length angles →
  let ts := zip3 (order_of (i + 1) (length angles)) mrc angles in
  (∃ vs, Forall2 (λ x v, PyFloat.of_string (PyStr.strip x) = Some v)
           (PyStr.readlines tilt_text) vs
         ∧ angles = PyFloat.round1 <$> vs)
  ∧ (∀ w, (∀ t, t ∈ ts → files w !! out_path dir basename t = None) →
       ∃ w', split_mrc mrc meta_text tilt_text basename dir w = (Returned tt, w')
         ∧ Spec.created w w' ≡ₚ out_path dir basename <$> ts
         ∧ length (Spec.created w w') = length angles
         ∧ Spec.angle_text <$> Spec.created w w' ≡ₚ Some ∘ PyFloat.repr <$> angles
         ∧ (Forall Spec.reads_back angles →
              Spec.angle_value <$> Spec.created w w' ≡ₚ Some <$> angles))
  ∧ (∀ w, (∃ t, t ∈ ts ∧ is_Some (files w !! out_path dir basename t)) →
       ∃ k t w', k < length angles ∧ ts !! k = Some t
         ∧ is_Some (files w !! out_path dir basename t)
         ∧ split_mrc mrc meta_text tilt_text basename dir w
           = (Raised (ValueError_exists (out_path dir basename t)), w')
         ∧ length (Spec.created w w') = k
         ∧ Spec.angle_text <$> Spec.created w w'
           ≡ₚ Some ∘ PyFloat.repr <$> take k angles).
Proof.
  intros Hmeta Hstart Hangles Hidx Hmrc ts.
  pose proof (index_lt _ _ _ Hidx) as Hi.
  assert (Hlen : length (order_of (i + 1) (length angles)) = length angles)
    by (apply order_of_length; lia).
  assert (Heq : ts.*2.*2 = angles) by by apply zip3_angles.
  assert (Hts : length ts = length angles)
    by (unfold ts; rewrite zip3_length by done; lia).
  assert (Hnodup : NoDup ts.*1) by apply zip3_NoDup_fst, order_of_NoDup.
  assert (Hloop : ∀ w, split_mrc mrc meta_text tilt_text basename dir w
                       = for_each (emit dir basename) ts w).
  { intros w. apply (split_mrc_loop _ _ _ _ _ _ _ _ _ _ Hmeta Hstart Hangles Hidx).
    intros ->. destruct angles; simpl in *; lia. }
  split_and!.
  - by apply angles_of_lines_inv.
  - intros w Hfresh. eexists. split; [| split_and!].
    + rewrite Hloop. by apply for_each_emit_fresh.
    + by apply created_files_after.
    + by rewrite created_files_after, length_fmap.
    + by rewrite created_files_after, angle_text_out_path, Heq.
    + intros Hback. rewrite created_files_after by done.
      rewrite angle_value_reads_back; by rewrite Heq.
  - intros w (t0 & Ht0 & Hthere).
    destruct (for_each_emit_prefix dir basename ts w) as (k & Hk & Hfresh & Hw & Hres).
    destruct (for_each (emit dir basename) ts w) as [[[]|e] w'] eqn:Hrun;
      simpl in Hw, Hres.
    { subst k. rewrite firstn_all in Hfresh.
      rewrite (Hfresh t0 Ht0) in Hthere. by destruct Hthere. }
    destruct Hres as (t & Hkt & -> & Hafter).
    assert (Hnd : NoDup (take k ts).*1).
    { rewrite fmap_take. eapply sublist_NoDup; [done | apply sublist_take]. }
    assert (Hnotin : out_path dir basename t ∉ (out_path dir basename <$> take k ts)).
    { intros (t' & Heqp & Hin)%list_elem_of_fmap.
      apply out_path_inj in Heqp.
      apply list_elem_of_lookup_1 in Hin as [j Hj].
      apply lookup_take_Some in Hj as [Hj Hjk].
      assert (Hjk' : j = k).
      { eapply NoDup_lookup; [exact Hnodup | |].
        - rewrite list_lookup_fmap, Hj. done.
        - rewrite list_lookup_fmap, Hkt. simpl. by rewrite Heqp. }
      lia. }
    rewrite files_after_other in Hafter by done.
    exists k, t, w'. subst w'.
    apply lookup_lt_Some in Hkt as Hklt.
    split_and!; [lia | done | done | by rewrite Hloop, Hrun | |].
    + rewrite created_files_after by done. rewrite length_fmap, length_take. lia.
    + rewrite created_files_after, angle_text_out_path by done.
      by rewrite !fmap_take, Heq.
Qed.

End Run.

(** ** The regular expressions *)

Lemma digit_run_spec (s d r : string) :
  Re.digit_run s = (d, r) →
  s = d +:+ r ∧ PyStr.all_digits d = true
  ∧ match r with String c _ => PyStr.is_digit c = false | EmptyString => True end.
Proof.
  revert d r. induction s as [|c s IH]; intros d r; simpl.
  - by intros [= <- <-].
  - destruct (PyStr.is_digit c) eqn:Hc.
    + destruct (Re.digit_run s) as [d' r'] eqn:Hrun. intros [= <- <-].
      destruct (IH d' r' eq_refl) as (-> & Hd & Hr).
      simpl. by rewrite Hc, Hd.
    + intros [= <- <-]. simpl. by rewrite Hc.
Qed.

Lemma match_decimal_spec (s t : string) :
  Re.match_decimal s = Some t →
  ∃ int frac rest, s = int +:+ "." +:+ frac +:+ rest ∧ t = int +:+ "." +:+ frac
    ∧ int ≠ "" ∧ frac ≠ ""
    ∧ PyStr.all_digits int = true ∧ PyStr.all_digits frac = true.
Proof.
  unfold Re.match_decimal.
  destruct (Re.digit_run s) as [d r] eqn:Hrun.
  destruct d as [|c d]; [done |]. destruct r as [|dot s1]; [done |].
  destruct (Ascii.eqb_spec dot ".") as [->|]; [| done].
  destruct (Re.digit_run s1) as [d1 r1] eqn:Hrun1.
  destruct d1 as [|c1 d1]; [done |]. intros [= <-].
  apply digit_run_spec in Hrun as (-> & Hd & _).
  apply digit_run_spec in Hrun1 as (-> & Hd1 & _).
  exists (String c d), (String c1 d1), r1. split_and!; done.
Qed.

Lemma match_number_spec (s t : string) :
  Re.match_number s = Some t → Re.decimal_text t.
Proof.
  assert (Hdec : ∀ s t, Re.match_decimal s = Some t → Re.decimal_text t).
  { intros s' t' (int & frac & rest & _ & -> & ? & ? & ? & ?)%match_decimal_spec.
    exists "", int, frac. split_and!; auto. }
  destruct s as [|c s]; simpl; [done |].
  destruct (Ascii.eqb c "+" || Ascii.eqb c "-") eqn:Hsign; [| apply Hdec].
  destruct (Re.match_decimal s) as [t'|] eqn:Ht'; [| apply Hdec].
  intros [= <-].
  apply match_decimal_spec in Ht' as (int & frac & rest & _ & -> & ? & ? & ? & ?).
  exists (String c ""), int, frac. split_and!; auto.
  apply orb_true_iff in Hsign as [->%Ascii.eqb_eq | ->%Ascii.eqb_eq]; auto.
Qed.

Lemma lazy_number_eq (s : string) :
  Re.lazy_number s =
    match Re.match_number s with
    | Some t => Some t
    | None =>
        match s with
        | String c s' =>
            if Ascii.eqb c PyStr.newline then None else Re.lazy_number s'
        | EmptyString => None
        end
    end.
Proof. by destruct s. Qed.

Lemma search_eq (label line : string) :
  Re.search label line =
    match Re.match_here label line with
    | Some t => Some t
    | None =>
        match line with
        | String _ line' => Re.search label line'
        | EmptyString => None
        end
    end.
Proof. by destruct line. Qed.

Lemma lazy_number_spec (s t : string) :
  Re.lazy_number s = Some t → Re.decimal_text t.
Proof.
  induction s as [|c s IH]; rewrite lazy_number_eq.
  - done.
  - destruct (Re.match_number (String c s)) as [t'|] eqn:Ht'.
    + intros [= <-]. by eapply match_number_spec.
    + destruct (Ascii.eqb c PyStr.newline); [done | exact IH].
Qed.

Lemma match_here_spec (label s t : string) :
  Re.match_here label s = Some t →
  ∃ rest, Re.strip_prefix label s = Some rest ∧ Re.lazy_number rest = Some t.
Proof.
  unfold Re.match_here. destruct (Re.strip_prefix label s) as [rest|]; [| done].
  simpl. eauto.
Qed.

(** What a pattern extracts has digits on both sides of a dot. *)
Lemma search_decimal_text (label line g : string) :
  Re.search label line = Some g → Re.decimal_text g.
Proof.
  induction line as [|c line IH]; rewrite search_eq.
  - destruct (Re.match_here label "") as [t|] eqn:Ht; [| done].
    intros [= <-]. apply match_here_spec in Ht as (rest & _ & Ht).
    by eapply lazy_number_spec.
  - destruct (Re.match_here label (String c line)) as [t|] eqn:Ht; [| exact IH].
    intros [= <-]. apply match_here_spec in Ht as (rest & _ & Ht).
    by eapply lazy_number_spec.
Qed.

Lemma match_decimal_dot (s t : string) :
  Re.match_decimal s = Some t → PyStr.occurs "." s = true.
Proof.
  intros (int & frac & rest & -> & _)%match_decimal_spec.
  rewrite occurs_app. simpl. by rewrite orb_true_r.
Qed.

Lemma match_number_dot (s t : string) :
  Re.match_number s = Some t → PyStr.occurs "." s = true.
Proof.
  destruct s as [|c s]; simpl; [done |].
  destruct (Ascii.eqb c "+" || Ascii.eqb c "-").
  - destruct (Re.match_decimal s) as [t'|] eqn:Ht'.
    + intros _. apply match_decimal_dot in Ht'. rewrite Ht'. by rewrite orb_true_r.
    + apply match_decimal_dot.
  - apply match_decimal_dot.
Qed.

Lemma lazy_number_dot (s t : string) :
  Re.lazy_number s = Some t → PyStr.occurs "." s = true.
Proof.
  induction s as [|c s IH]; rewrite lazy_number_eq; [done |].
  destruct (Re.match_number (String c s)) as [t'|] eqn:Ht'.
  - intros _. by eapply match_number_dot.
  - destruct (Ascii.eqb c PyStr.newline); [done |].
    intros H. simpl. rewrite (IH H). by rewrite orb_true_r.
Qed.

Lemma strip_prefix_occurs (c : ascii) (p s rest : string) :
  Re.strip_prefix p s = Some rest → PyStr.occurs c rest = true →
  PyStr.occurs c s = true.
Proof.
  revert s. induction p as [|a p IH]; intros [|b s]; simpl; try done.
  - by intros [= <-].
  - by intros [= <-].
  - destruct (Ascii.eqb a b); [| done].
    intros H1 H2. rewrite (IH _ H1 H2). by rewrite orb_true_r.
Qed.

Lemma match_here_dot (label s t : string) :
  Re.match_here label s = Some t → PyStr.occurs "." s = true.
Proof.
  intros (rest & Hrest & Ht)%match_here_spec.
  eapply strip_prefix_occurs; [done |]. by eapply lazy_number_dot.
Qed.

(** A line without a dot has no match. *)
Lemma search_no_dot (label line : string) :
  PyStr.occurs "." line = false → Re.search label line = None.
Proof.
  induction line as [|c line IH]; intros Hdot; rewrite search_eq.
  - destruct (Re.match_here label "") as [t|] eqn:Ht; [| done].
    apply match_here_dot in Ht. congruence.
  - destruct (Re.match_here label (String c line)) as [t|] eqn:Ht.
    + apply match_here_dot in Ht. congruence.
    + apply IH. simpl in Hdot. by apply orb_false_iff in Hdot as [_ ?].
Qed.

Lemma strip_prefix_Some (p s rest : string) :
  Re.strip_prefix p s = Some rest ↔ s = p +:+ rest.
Proof.
  revert s. induction p as [|a p IH]; intros s.
  - destruct s; simpl; (split; [by intros [= <-] | by intros ->]).
  - destruct s as [|b s]; [split; done |]. cbn [Re.strip_prefix].
    change (String a p +:+ rest) with (String a (p +:+ rest)).
    destruct (Ascii.eqb_spec a b) as [->|Hne].
    + rewrite IH. split; congruence.
    + split; [done | congruence].
Qed.

Lemma match_number_at (s t : string) :
  Re.match_number s = Some t → ∃ post, s = t +:+ post.
Proof.
  assert (Hdec : ∀ s t, Re.match_decimal s = Some t → ∃ post, s = t +:+ post).
  { intros s' t' (int & frac & rest & -> & -> & _)%match_decimal_spec.
    exists rest. by rewrite string_app_assoc. }
  destruct s as [|c s]; [done |]. cbn [Re.match_number].
  destruct (Ascii.eqb c "+" || Ascii.eqb c "-"); [| apply Hdec].
  destruct (Re.match_decimal s) as [t'|] eqn:Ht'; [| apply Hdec].
  intros [= <-]. destruct (Hdec _ _ Ht') as [post ->]. by exists post.
Qed.

Lemma lazy_number_at (s t : string) :
  Re.lazy_number s = Some t →
  ∃ mid post, s = mid +:+ t +:+ post ∧ PyStr.occurs PyStr.newline mid = false.
Proof.
  induction s as [|c s IH]; rewrite lazy_number_eq.
  - destruct (Re.match_number "") eqn:Hm; [| done].
    intros [= <-]. apply match_number_at in Hm as [post Hpost].
    by exists "", post.
  - destruct (Re.match_number (String c s)) as [t'|] eqn:Hm.
    + intros [= <-]. apply match_number_at in Hm as [post Hpost].
      by exists "", post.
    + destruct (Ascii.eqb c PyStr.newline) eqn:Hc; [done |].
      intros (mid & post & -> & Hmid)%IH.
      exists (String c mid), post. split; [done |]. cbn [PyStr.occurs].
      rewrite Hmid, orb_false_r.
      destruct (Ascii.eqb_spec PyStr.newline c) as [<-|]; [| done].
      by rewrite Ascii.eqb_refl in Hc.
Qed.

(** ** [float] of what a pattern extracts *)

Lemma digit_facts (c : ascii) :
  PyStr.is_digit c = true →
  PyStr.is_space c = false ∧ PyStr.lower c = c
  ∧ Ascii.eqb c "-" = false ∧ Ascii.eqb c "+" = false
  ∧ Ascii.eqb c "_" = false ∧ Ascii.eqb c "i" = false ∧ Ascii.eqb c "n" = false.
Proof.
  destruct c as [[|] [|] [|] [|] [|] [|] [|] [|]]; intros H;
    try discriminate H; by vm_compute.
Qed.

Lemma digits_tail_run (d r : string) (acc : N) (cnt : Z) :
  PyStr.all_digits d = true →
  match r with
  | String c _ => PyStr.is_digit c = false ∧ Ascii.eqb c "_" = false
  | EmptyString => True
  end →
  PyFloat.digits_tail (d +:+ r) acc cnt
  = (PyStr.digits_value acc d, (cnt + Z.of_nat (String.length d))%Z, r).
Proof.
  intros Hd Hr. revert acc cnt Hd.
  induction d as [|c d IH]; intros acc cnt Hd; simpl.
  - rewrite Z.add_0_r. destruct r as [|c r]; [done |].
    simpl. destruct Hr as [-> ->]. done.
  - simpl in Hd. apply andb_true_iff in Hd as [Hc Hd].
    rewrite Hc, IH by done. do 2 f_equal. lia.
Qed.

Lemma digitpart_run (d r : string) (acc : N) :
  d ≠ "" → PyStr.all_digits d = true →
  match r with
  | String c _ => PyStr.is_digit c = false ∧ Ascii.eqb c "_" = false
  | EmptyString => True
  end →
  PyFloat.digitpart (d +:+ r) acc
  = Some (PyStr.digits_value acc d, Z.of_nat (String.length d), r).
Proof.
  intros Hne Hd Hr. destruct d as [|c d]; [done |].
  simpl in *. apply andb_true_iff in Hd as [Hc Hd].
  rewrite Hc, digits_tail_run by done. do 3 f_equal. lia.
Qed.

Lemma rstrip_cons (c : ascii) (s : string) :
  s ≠ "" → PyStr.rstrip s = s → PyStr.rstrip (String c s) = String c s.
Proof. intros Hne Hs. cbn [PyStr.rstrip]. rewrite Hs. by destruct s. Qed.

Lemma rstrip_app (a b : string) :
  b ≠ "" → PyStr.rstrip b = b → PyStr.rstrip (a +:+ b) = a +:+ b.
Proof.
  intros Hne Hb. induction a as [|c a IH]; [done |].
  change (String c a +:+ b) with (String c (a +:+ b)).
  apply rstrip_cons; [| done]. by destruct a, b.
Qed.

Lemma rstrip_digits (d : string) :
  PyStr.all_digits d = true → PyStr.rstrip d = d.
Proof.
  induction d as [|c d IH]; [done |].
  intros [Hc Hd]%andb_true_iff. cbn [PyStr.rstrip]. rewrite IH by done.
  destruct d; [| done].
  by destruct (digit_facts c Hc) as (-> & _).
Qed.

(** A decimal literal has no surrounding whitespace. *)
Lemma strip_decimal (sign : string) (c : ascii) (int frac : string) :
  sign = "" ∨ sign = "+" ∨ sign = "-" →
  PyStr.is_digit c = true → frac ≠ "" → PyStr.all_digits frac = true →
  PyStr.strip (sign +:+ String c (int +:+ "." +:+ frac))
  = sign +:+ String c (int +:+ "." +:+ frac).
Proof.
  intros Hsign Hc Hne Hd.
  destruct (digit_facts c Hc) as (Hsp & _).
  assert (Hr : PyStr.rstrip (String c (int +:+ "." +:+ frac))
               = String c (int +:+ "." +:+ frac)).
  { apply rstrip_cons; [by destruct int |].
    apply rstrip_app; [done |].
    apply rstrip_cons; [done |]. by apply rstrip_digits. }
  unfold PyStr.strip.
  destruct Hsign as [-> | [-> | ->]].
  - change ("" +:+ String c (int +:+ "." +:+ frac))
      with (String c (int +:+ "." +:+ frac)).
    cbn [PyStr.lstrip]. by rewrite Hsp.
  - change (PyStr.lstrip ("+" +:+ String c (int +:+ "." +:+ frac)))
      with ("+" +:+ String c (int +:+ "." +:+ frac)).
    by apply rstrip_cons.
  - change (PyStr.lstrip ("-" +:+ String c (int +:+ "." +:+ frac)))
      with ("-" +:+ String c (int +:+ "." +:+ frac)).
    by apply rstrip_cons.
Qed.

(** The parser on a decimal literal without sign. *)
Lemma parse_number_decimal (c : ascii) (int frac : string) :
  PyStr.is_digit c = true → PyStr.all_digits int = true →
  frac ≠ "" → PyStr.all_digits frac = true →
  PyFloat.parse_number (String c (int +:+ "." +:+ frac))
  = Some (PyStr.digits_value (PyStr.digits_value 0 (String c int)) frac,
          (0 - Z.of_nat (String.length frac))%Z).
Proof.
  intros Hc Hdi Hne Hdf. unfold PyFloat.parse_number.
  change (String c (int +:+ "." +:+ frac))
    with (String c int +:+ ("." +:+ frac)).
  rewrite (digitpart_run (String c int) ("." +:+ frac)); simpl; try done.
  2: by rewrite Hc, Hdi.
  rewrite <- (string_app_nil_r frac) at 1.
  rewrite (digitpart_run frac ""); done.
Qed.

(** [float(match.group(1))] never raises: the text is a decimal literal,
    read as the binary64 nearest to it. *)
Lemma of_string_decimal_text (g : string) :
  Re.decimal_text g → is_Some (PyFloat.of_string g).
Proof.
  intros (sign & int & frac & -> & Hsign & Hint & Hfrac & Hdi & Hdf).
  destruct int as [|c int]; [done |].
  simpl in Hdi. apply andb_true_iff in Hdi as [Hc Hdi].
  destruct (digit_facts c Hc) as (Hsp & Hlow & Hm & Hp & Hu & Hi & Hn).
  change (sign +:+ String c int +:+ "." +:+ frac)
    with (sign +:+ String c (int +:+ "." +:+ frac)).
  unfold PyFloat.of_string. rewrite strip_decimal by done.
  assert (Hbody : ∀ neg,
    is_Some (let word := PyStr.lower_str (String c (int +:+ "." +:+ frac)) in
      if String.eqb word "inf" || String.eqb word "infinity"
      then Some (PyFloat.inf neg)
      else if String.eqb word "nan" then Some PyFloat.nan
      else '(n, k) ← PyFloat.parse_number (String c (int +:+ "." +:+ frac));
           Some (PyFloat.of_decimal neg n k))).
  { intros neg. cbn [PyStr.lower_str String.eqb]. rewrite Hlow, Hi, Hn.
    cbn [andb orb]. by rewrite parse_number_decimal. }
  destruct Hsign as [-> | [-> | ->]].
  - change ("" +:+ String c (int +:+ "." +:+ frac))
      with (String c (int +:+ "." +:+ frac)).
    cbn [PyFloat.parse_sign]. rewrite Hm, Hp. apply Hbody.
  - apply Hbody.
  - apply Hbody.
Qed.

Lemma py_float_search (label line g : string) :
  Re.search label line = Some g → ∃ v, py_float g = Returned v.
Proof.
  intros Hg%search_decimal_text%of_string_decimal_text.
  destruct Hg as [v Hv]. exists v. by apply py_float_Returned.
Qed.

(** ** When a pattern matches *)

Lemma digit_run_app (d r : string) :
  PyStr.all_digits d = true →
  Re.digit_run (d +:+ r) = (d +:+ (Re.digit_run r).1, (Re.digit_run r).2).
Proof.
  induction d as [|c d IH]; intros Hd.
  - rewrite !string_app_nil_l. by destruct (Re.digit_run r).
  - simpl in Hd. apply andb_true_iff in Hd as [Hc Hd].
    rewrite !string_app_cons. cbn [Re.digit_run]. by rewrite Hc, IH.
Qed.

Lemma match_decimal_complete (int frac post : string) :
  int ≠ "" → PyStr.all_digits int = true →
  frac ≠ "" → PyStr.all_digits frac = true →
  is_Some (Re.match_decimal (int +:+ "." +:+ frac +:+ post)).
Proof.
  intros Hint Hdi Hfrac Hdf. unfold Re.match_decimal.
  rewrite digit_run_app by done.
  change (Re.digit_run ("." +:+ frac +:+ post))
    with (EmptyString, String "." (frac +:+ post)).
  cbn [fst snd]. rewrite string_app_nil_r.
  destruct int as [|c int]; [done |]. rewrite Ascii.eqb_refl.
  rewrite digit_run_app by done. cbn [fst snd].
  destruct frac as [|c' frac]; [done |]. by rewrite string_app_cons.
Qed.

Lemma match_number_complete (g post : string) :
  Re.decimal_text g → is_Some (Re.match_number (g +:+ post)).
Proof.
  intros (sign & int & frac & -> & Hsign & Hint & Hfrac & Hdi & Hdf).
  pose proof (match_decimal_complete int frac post Hint Hdi Hfrac Hdf) as Hdec.
  rewrite !string_app_assoc.
  change (("." +:+ frac) +:+ post) with ("." +:+ frac +:+ post).
  destruct Hsign as [-> | [-> | ->]].
  - rewrite string_app_nil_l. destruct int as [|c int]; [done |].
    rewrite string_app_cons in *. cbn [Re.match_number].
    simpl in Hdi. apply andb_true_iff in Hdi as [Hc _].
    destruct (digit_facts c Hc) as (_ & _ & -> & -> & _). done.
  - change ("+" +:+ int +:+ "." +:+ frac +:+ post)
      with (String "+" (int +:+ "." +:+ frac +:+ post)).
    cbn [Re.match_number]. destruct Hdec as [t ->]. by rewrite Ascii.eqb_refl.
  - change ("-" +:+ int +:+ "." +:+ frac +:+ post)
      with (String "-" (int +:+ "." +:+ frac +:+ post)).
    cbn [Re.match_number]. destruct Hdec as [t ->].
    rewrite Ascii.eqb_refl, orb_true_r. done.
Qed.

Lemma lazy_number_complete (mid s : string) :
  PyStr.occurs PyStr.newline mid = false →
  is_Some (Re.match_number s) → is_Some (Re.lazy_number (mid +:+ s)).
Proof.
  intros Hmid Hs. induction mid as [|c mid IH].
  - rewrite string_app_nil_l, lazy_number_eq. by destruct Hs as [t ->].
  - cbn [PyStr.occurs] in Hmid. apply orb_false_iff in Hmid as [Hc Hmid].
    rewrite string_app_cons, lazy_number_eq.
    destruct (Re.match_number (String c (mid +:+ s))); [done |].
    rewrite Ascii.eqb_sym, Hc. by apply IH.
Qed.

(** A match is a decimal number that stands after the label. *)
Lemma search_occurrence (label line g : string) :
  Re.search label line = Some g →
  ∃ pre mid post,
    line = pre +:+ label +:+ mid +:+ g +:+ post
    ∧ PyStr.occurs PyStr.newline mid = false
    ∧ Re.decimal_text g.
Proof.
  intros Hs. pose proof (search_decimal_text _ _ _ Hs) as Hg.
  revert Hs. induction line as [|c line IH]; rewrite search_eq.
  - destruct (Re.match_here label "") as [t|] eqn:Ht; [| done].
    intros [= <-]. apply match_here_spec in Ht as (rest & Hrest & Ht).
    apply strip_prefix_Some in Hrest.
    apply lazy_number_at in Ht as (mid & post & -> & Hmid).
    exists "", mid, post. done.
  - destruct (Re.match_here label (String c line)) as [t|] eqn:Ht.
    + intros [= <-]. apply match_here_spec in Ht as (rest & Hrest & Ht).
      apply strip_prefix_Some in Hrest.
      apply lazy_number_at in Ht as (mid & post & -> & Hmid).
      exists "", mid, post. done.
    + intros (pre & mid & post & -> & Hmid & _)%IH.
      exists (String c pre), mid, post. done.
Qed.

(** A pattern matches a line exactly when a decimal number stands after
    its label. *)
Lemma search_iff (label line : string) :
  is_Some (Re.search label line) ↔ Spec.number_follows label line.
Proof.
  split.
  - intros [g (pre & mid & post & ? & ? & ?)%search_occurrence].
    by exists pre, mid, g, post.
  - intros (pre & mid & g & post & -> & Hmid & Hg).
    induction pre as [|c pre IH].
    + rewrite string_app_nil_l, search_eq. unfold Re.match_here.
      rewrite (proj2 (strip_prefix_Some label _ (mid +:+ g +:+ post)) eq_refl).
      cbn [mbind option_bind].
      destruct (lazy_number_complete mid (g +:+ post) Hmid
                  (match_number_complete g post Hg)) as [t ->]. done.
    + rewrite string_app_cons, search_eq.
      by destruct (Re.match_here label _).
Qed.

Lemma search_None (label line : string) :
  Re.search label line = None ↔ ¬ Spec.number_follows label line.
Proof.
  rewrite <- search_iff, <- eq_None_not_Some. done.
Qed.

(** Two ways of cutting one text: the shorter head is a head of the
    longer one. *)
Lemma string_app_cut (a x m y : string) :
  a +:+ x = m +:+ y → String.length a ≤ String.length m →
  ∃ b, m = a +:+ b ∧ x = b +:+ y.
Proof.
  revert m. induction a as [|c a IH]; intros m Heq Hlen.
  - exists m. by rewrite !string_app_nil_l in *.
  - destruct m as [|d m]; [simpl in Hlen; lia |].
    rewrite !string_app_cons in Heq. injection Heq as -> Heq.
    destruct (IH m Heq) as (b & -> & ->); [simpl in Hlen; lia |].
    by exists b.
Qed.

(** The lazy [.*?] stops at the first position where a number starts. *)
Lemma lazy_number_first (s t : string) :
  Re.lazy_number s = Some t →
  ∃ mid post, s = mid +:+ t +:+ post
    ∧ PyStr.occurs PyStr.newline mid = false
    ∧ ∀ a b, mid = a +:+ b → b ≠ "" → Re.match_number (b +:+ t +:+ post) = None.
Proof.
  induction s as [|c s IH]; rewrite lazy_number_eq.
  - destruct (Re.match_number "") eqn:Hm; [| done].
    intros [= <-]. apply match_number_at in Hm as [post Hpost].
    exists "", post. split_and!; [done | done |].
    intros a b Hab Hb. by destruct a, b.
  - destruct (Re.match_number (String c s)) as [t'|] eqn:Hm.
    + intros [= <-]. apply match_number_at in Hm as [post Hpost].
      exists "", post. split_and!; [done | done |].
      intros a b Hab Hb. by destruct a, b.
    + destruct (Ascii.eqb c PyStr.newline) eqn:Hc; [done |].
      intros (mid & post & -> & Hmid & Hfirst)%IH.
      exists (String c mid), post. split_and!; [done | |].
      * cbn [PyStr.occurs]. rewrite Hmid, orb_false_r.
        destruct (Ascii.eqb_spec PyStr.newline c) as [<-|]; [| done].
        by rewrite Ascii.eqb_refl in Hc.
      * intros [|c' a] b Hab Hb.
        -- rewrite string_app_nil_l in Hab. by subst b.
        -- rewrite string_app_cons in Hab. injection Hab as <- ->.
           by apply (Hfirst a b).
Qed.

(** What a pattern extracts is the first decimal number after the
    label. *)
Lemma search_first (label line g : string) :
  Re.search label line = Some g →
  ∃ pre mid post,
    line = pre +:+ label +:+ mid +:+ g +:+ post
    ∧ PyStr.occurs PyStr.newline mid = false
    ∧ Re.decimal_text g
    ∧ ∀ a g' post', mid +:+ g +:+ post = a +:+ g' +:+ post' →
        Re.decimal_text g' → String.length mid ≤ String.length a.
Proof.
  intros Hs. pose proof (search_decimal_text _ _ _ Hs) as Hg.
  assert (Hhere : ∀ s, Re.match_here label s = Some g →
    ∃ mid post, s = label +:+ mid +:+ g +:+ post
      ∧ PyStr.occurs PyStr.newline mid = false
      ∧ ∀ a g' post', mid +:+ g +:+ post = a +:+ g' +:+ post' →
          Re.decimal_text g' → String.length mid ≤ String.length a).
  { intros s (rest & Hrest & Ht)%match_here_spec.
    apply strip_prefix_Some in Hrest as ->.
    apply lazy_number_first in Ht as (mid & post & -> & Hmid & Hfirst).
    exists mid, post. split_and!; [done | done |].
    intros a g' post' Heq Hg'.
    destruct (decide (String.length mid ≤ String.length a)) as [|Hlt]; [done |].
    exfalso. symmetry in Heq.
    destruct (string_app_cut a (g' +:+ post') mid (g +:+ post) Heq) as (b & -> & Hb);
      [lia |].
    assert (Hne : b ≠ "").
    { intros ->. rewrite string_app_nil_r in Hlt. lia. }
    pose proof (Hfirst a b eq_refl Hne) as Hnone.
    rewrite <- Hb in Hnone.
    destruct (match_number_complete g' post' Hg') as [t Ht]. congruence. }
  revert Hs. induction line as [|c line IH]; rewrite search_eq.
  - destruct (Re.match_here label "") as [t|] eqn:Ht; [| done].
    intros [= ->]. destruct (Hhere _ Ht) as (mid & post & ? & ? & ?).
    exists "", mid, post. done.
  - destruct (Re.match_here label (String c line)) as [t|] eqn:Ht.
    + intros [= ->]. destruct (Hhere _ Ht) as (mid & post & ? & ? & ?).
      exists "", mid, post. done.
    + intros (pre & mid & post & -> & ? & ? & ?)%IH.
      exists (String c pre), mid, post. done.
Qed.

(** ** The loop over the parameters file *)

(** The chain of line 52-61, branch by branch: a line goes to the first
    of the patterns, in the order of the chain, that matches it. *)
Lemma branch_chain (line : string) (x : var) (g : string) :
  branch line = Some (x, g) ↔
  match x with
  | Start_angle => start_angle_re line = Some g
  | Step => start_angle_re line = None ∧ step_re line = Some g
  | Step_high =>
      start_angle_re line = None ∧ step_re line = None
      ∧ step_high_re line = Some g
  | Min_angle =>
      start_angle_re line = None ∧ step_re line = None
      ∧ step_high_re line = None ∧ min_angle_re line = Some g
  | Max_angle =>
      start_angle_re line = None ∧ step_re line = None
      ∧ step_high_re line = None ∧ min_angle_re line = None
      ∧ max_angle_re line = Some g
  end.
Proof.
  unfold branch.
  destruct (start_angle_re line), (step_re line), (step_high_re line),
    (min_angle_re line), (max_angle_re line), x; naive_solver.
Qed.

Lemma branch_search (line : string) (x : var) (g : string) :
  branch line = Some (x, g) → ∃ label, Re.search label line = Some g.
Proof.
  intros Hb%branch_chain.
  unfold start_angle_re, step_re, step_high_re, min_angle_re, max_angle_re in Hb.
  destruct x; naive_solver.
Qed.

Lemma get_assign (x y : var) (v : PyFloat.float) (l : locals) :
  get x (assign y v l) = if decide (x = y) then Some v else get x l.
Proof. by destruct x, y, l. Qed.

Lemma meta_step_branch (l : locals) (line : string) (x : var) (g : string) :
  branch line = Some (x, g) →
  ∃ v, PyFloat.of_string g = Some v ∧ meta_step l line = Returned (assign x v l).
Proof.
  intros Hb. unfold meta_step. rewrite Hb.
  destruct (branch_search _ _ _ Hb) as [label Hs].
  apply search_decimal_text, of_string_decimal_text in Hs as [v Hv].
  exists v. split; [done |]. unfold py_float. by rewrite Hv.
Qed.

Lemma meta_step_none (l : locals) (line : string) :
  branch line = None → meta_step l line = Returned l.
Proof. intros Hb. unfold meta_step. by rewrite Hb. Qed.

(** The loop over the parameters file never raises. *)
Lemma meta_loop_total (l : locals) (lines : list string) :
  ∃ l', meta_loop l lines = Returned l'.
Proof.
  revert l. induction lines as [|line lines IH]; intros l; simpl; [by eexists |].
  destruct (branch line) as [[x g]|] eqn:Hb.
  - destruct (meta_step_branch l _ _ _ Hb) as (v & _ & ->). apply IH.
  - rewrite meta_step_none by done. apply IH.
Qed.

Lemma meta_loop_app (l : locals) (a b : list string) :
  meta_loop l (a ++ b) = l' ← meta_loop l a; meta_loop l' b.
Proof.
  revert l. induction a as [|line a IH]; intros l; simpl; [done |].
  destruct (meta_step l line) as [l1|e]; simpl; [apply IH | done].
Qed.

(** Lines that do not take the branch of [x] leave [x] as it is. *)
Lemma meta_loop_keeps (x : var) (l l' : locals) (lines : list string) :
  (∀ line g, line ∈ lines → branch line ≠ Some (x, g)) →
  meta_loop l lines = Returned l' → get x l' = get x l.
Proof.
  revert l. induction lines as [|line lines IH]; intros l Hno; simpl.
  - by intros [= <-].
  - destruct (branch line) as [[y g]|] eqn:Hb.
    + destruct (meta_step_branch l _ _ _ Hb) as (v & _ & ->). simpl.
      intros Hloop. rewrite (IH (assign y v l)); [| | done].
      * rewrite get_assign. case_decide as Hxy; [| done].
        subst y. destruct (Hno line g); [by left | done].
      * intros line' g' Hin. apply Hno. by right.
    + rewrite meta_step_none by done. simpl. apply IH.
      intros line' g' Hin. apply Hno. by right.
Qed.

(** A variable bound by the loop holds [float(match.group(1))] of some
    line that took its branch. *)
Lemma meta_loop_bound (x : var) (l l' : locals) (lines : list string)
    (v : PyFloat.float) :
  meta_loop l lines = Returned l' → get x l' = Some v →
  get x l = Some v
  ∨ ∃ line g, line ∈ lines ∧ branch line = Some (x, g)
              ∧ PyFloat.of_string g = Some v.
Proof.
  revert l. induction lines as [|line lines IH]; intros l; simpl.
  - intros [= <-]. by left.
  - destruct (branch line) as [[y g]|] eqn:Hb.
    + destruct (meta_step_branch l _ _ _ Hb) as (v' & Hv' & ->). simpl.
      intros Hloop Hget. destruct (IH _ Hloop Hget) as [Hl | (line' & g' & ? & ? & ?)].
      * rewrite get_assign in Hl. case_decide as Hxy; [| by left].
        subst y. injection Hl as ->. right. exists line, g.
        split_and!; [by left | done | done].
      * right. exists line', g'. split_and!; [by right | done | done].
    + rewrite meta_step_none by done. simpl.
      intros Hloop Hget. destruct (IH _ Hloop Hget) as [Hl | (line' & g' & ? & ? & ?)].
      * by left.
      * right. exists line', g'. split_and!; [by right | done | done].
Qed.

(** C4 (as the code has it): every line that takes the branch of a
    variable assigns it, so the last occurrence is kept: after the loop,
    the variable holds the number matched on the latest line that took
    its branch, whatever earlier lines matched. *)
Theorem C4_last_occurrence_kept (meta_text : string) (pre post : list string)
    (line : string) (x : var) (g : string) :
  PyStr.readlines meta_text = pre ++ line :: post →
  branch line = Some (x, g) →
  (∀ later g', later ∈ post → branch later ≠ Some (x, g')) →
  ∃ vars v, parse_meta meta_text = Returned vars
            ∧ PyFloat.of_string g = Some v
            ∧ get x vars = Some v.
Proof.
  intros Hlines Hb Hpost. unfold parse_meta. rewrite Hlines, meta_loop_app.
  destruct (meta_loop_total unbound pre) as [l1 ->]. simpl.
  destruct (meta_step_branch l1 _ _ _ Hb) as (v & Hv & ->). simpl.
  destruct (meta_loop_total (assign x v l1) post) as [vars Hvars].
  exists vars, v. split_and!; [done | done |].
  rewrite (meta_loop_keeps x _ _ _ Hpost Hvars), get_assign.
  by case_decide.
Qed.

(** ** Variables that the loop binds *)

Lemma meta_loop_mono (x : var) (l l' : locals) (lines : list string) :
  meta_loop l lines = Returned l' → is_Some (get x l) → is_Some (get x l').
Proof.
  revert l. induction lines as [|line lines IH]; intros l; simpl.
  - by intros [= <-].
  - destruct (branch line) as [[y g]|] eqn:Hb.
    + destruct (meta_step_branch l _ _ _ Hb) as (v & _ & ->). simpl.
      intros Hloop Hx. apply (IH _ Hloop). rewrite get_assign.
      by case_decide.
    + rewrite meta_step_none by done. simpl. apply IH.
Qed.

Lemma meta_loop_binds (x : var) (l l' : locals) (lines : list string)
    (line g : string) :
  line ∈ lines → branch line = Some (x, g) →
  meta_loop l lines = Returned l' → is_Some (get x l').
Proof.
  intros Hin Hb. revert l. induction lines as [|line' lines IH]; intros l.
  - by apply elem_of_nil in Hin.
  - apply elem_of_cons in Hin as [<- | Hin]; simpl.
    + destruct (meta_step_branch l _ _ _ Hb) as (v & _ & ->). simpl.
      intros Hloop. apply (meta_loop_mono x _ _ _ Hloop).
      rewrite get_assign. by case_decide.
    + destruct (meta_step l line') as [l1|]; simpl; [| done].
      by apply IH.
Qed.

(** [start_angle] is unbound after the loop exactly when no line of the
    parameters file matches its pattern. *)
Lemma start_unbound_iff (meta_text : string) (vars : locals) :
  parse_meta meta_text = Returned vars →
  start_angle vars = None ↔
  ∀ line, line ∈ PyStr.readlines meta_text → start_angle_re line = None.
Proof.
  intros Hmeta. split.
  - intros Hnone line Hin.
    destruct (start_angle_re line) as [g|] eqn:Hg; [| done].
    assert (Hb : branch line = Some (Start_angle, g)) by by apply branch_chain.
    destruct (meta_loop_binds Start_angle _ _ _ _ _ Hin Hb Hmeta) as [v Hv].
    simpl in Hv. congruence.
  - intros Hno. change (get Start_angle vars = get Start_angle unbound).
    eapply meta_loop_keeps; [| exact Hmeta].
    intros line g Hin Hb%branch_chain. rewrite (Hno line Hin) in Hb. done.
Qed.

(** ** The start angle *)

Section Start.

Context {image : Type}.
Implicit Types (w : world image) (mrc : list image).

(** C2 (as the code has it): the start angle is [float(match.group(1))]
    of a line of the parameters file, not rounded; the pivot is the
    position of the first angle of the (rounded) list equal to it, and
    when no angle is equal [split_mrc] raises the [ValueError] of
    [list.index] with nothing written. A start angle of 3.45 is not
    found in a list that holds 3.5. *)
Theorem C2_pivot_compares_unrounded_start mrc
    (meta_text tilt_text basename dir : string) w
    (vars : locals) (angles : list PyFloat.float) (start : PyFloat.float) :
  parse_meta meta_text = Returned vars → start_angle vars = Some start →
  parse_angles tilt_text = Returned angles →
  (∃ line g, line ∈ PyStr.readlines meta_text
             ∧ start_angle_re line = Some g
             ∧ PyFloat.of_string g = Some start)
  ∧ (∀ i, index angles start = Some i ↔
       (∃ y, angles !! i = Some y ∧ PyFloat.eqb y start = true)
       ∧ (∀ j y, j < i → angles !! j = Some y → PyFloat.eqb y start = false))
  ∧ (index angles start = None ↔
       ∀ y, y ∈ angles → PyFloat.eqb y start = false)
  ∧ (index angles start = None →
       split_mrc mrc meta_text tilt_text basename dir w
       = (Raised ValueError_index, w))
  ∧ (∀ a s, PyFloat.of_string "3.5" = Some a →
            PyFloat.of_string "3.45" = Some s →
       index [PyFloat.round1 a] s = None
       ∧ index [PyFloat.round1 a] (PyFloat.round1 s) = Some 0).
Proof.
  intros Hmeta Hstart Hangles. split_and!.
  - destruct (meta_loop_bound Start_angle _ _ _ start Hmeta Hstart)
      as [Hun | (line & g & Hin & Hb & Hv)]; [done |].
    exists line, g. split_and!; [done | | done]. by apply branch_chain in Hb.
  - apply index_Some.
  - apply index_None.
  - intros Hnone. unfold split_mrc, io_bind, pure, io_ret, raise.
    by rewrite Hmeta, Hangles, Hstart, Hnone.
  - intros a s Ha Hs. vm_compute in Ha, Hs.
    injection Ha as <-. injection Hs as <-. by vm_compute.
Qed.

(** C5 (as the code has it): the angle list is empty exactly when the
    file is; then [split_mrc] raises and writes no file, the world is
    unchanged: the [ValueError] of [list.index] when some line of the
    parameters file gave the start angle, as nothing is in the empty
    list, and the [UnboundLocalError] of [start_angle] when none did. *)
Theorem C5_empty_angle_list_raises mrc (meta_text basename dir : string) w :
  parse_angles "" = Returned []
  ∧ (∀ tilt_text, parse_angles tilt_text = Returned [] ↔ tilt_text = "")
  ∧ ∃ vars, parse_meta meta_text = Returned vars
      ∧ (start_angle vars = None ↔
           ∀ line, line ∈ PyStr.readlines meta_text → start_angle_re line = None)
      ∧ split_mrc mrc meta_text "" basename dir w
        = (Raised (match start_angle vars with
                   | Some _ => ValueError_index
                   | None => UnboundLocalError "start_angle"
                   end), w).
Proof.
  split_and!; [done | apply parse_angles_nil |].
  destruct (meta_loop_total unbound (PyStr.readlines meta_text)) as [vars Hvars].
  fold (parse_meta meta_text) in Hvars.
  exists vars. split_and!; [done | by apply start_unbound_iff |].
  unfold split_mrc, io_bind, pure, raise, io_ret. rewrite Hvars.
  change (parse_angles "") with (Returned (@nil PyFloat.float)).
  by destruct (start_angle vars).
Qed.

(** C10 (as the code has it): what a pattern extracts always has digits
    on both sides of a dot: it is the first such number that stands
    after the label, and a pattern matches a line exactly when there is
    one. A value written without fractional part is never extracted, the
    pattern passes over it to the next decimal number of the line. A
    line without a dot matches nothing. When no line of the parameters
    file has a decimal number after the start-angle label, and only
    then, [start_angle] stays unbound; [split_mrc] then raises with
    nothing written: the [UnboundLocalError] of line 65, or before it
    the [ValueError] of an angle line that is no float. *)
Theorem C10_integer_value_not_extracted mrc
    (meta_text tilt_text basename dir : string) w :
  (∀ label line g, Re.search label line = Some g →
     ∃ pre mid post,
       line = pre +:+ label +:+ mid +:+ g +:+ post
       ∧ PyStr.occurs PyStr.newline mid = false
       ∧ Re.decimal_text g
       ∧ ∀ a g' post', mid +:+ g +:+ post = a +:+ g' +:+ post' →
           Re.decimal_text g' → String.length mid ≤ String.length a)
  ∧ (∀ label line,
       is_Some (Re.search label line) ↔ Spec.number_follows label line)
  ∧ (∀ label line, PyStr.occurs "." line = false → Re.search label line = None)
  ∧ start_angle_re "Start tilt angle = 3" = None
  ∧ start_angle_re "Start tilt angle = 3 deg, step 1.5" = Some "1.5"
  ∧ ∃ vars, parse_meta meta_text = Returned vars
      ∧ (start_angle vars = None ↔
           ∀ line, line ∈ PyStr.readlines meta_text →
                   ¬ Spec.number_follows "Start tilt angle" line)
      ∧ (start_angle vars = None →
           ∃ e, split_mrc mrc meta_text tilt_text basename dir w = (Raised e, w)
                ∧ (∀ angles, parse_angles tilt_text = Returned angles →
                     e = UnboundLocalError "start_angle")
                ∧ (∀ e', parse_angles tilt_text = Raised e' → e = e')).
Proof.
  split_and!.
  - apply search_first.
  - apply search_iff.
  - apply search_no_dot.
  - by vm_compute.
  - by vm_compute.
  - destruct (meta_loop_total unbound (PyStr.readlines meta_text)) as [vars Hvars].
    fold (parse_meta meta_text) in Hvars.
    exists vars. split_and!; [done | |].
    + rewrite (start_unbound_iff meta_text vars Hvars).
      unfold start_angle_re. by setoid_rewrite search_None.
    + intros Hstart. unfold split_mrc, io_bind, pure, raise. rewrite Hvars.
      destruct (parse_angles tilt_text) as [angles|e].
      * rewrite Hstart. eexists. split_and!; [done | done | done].
      * eexists. split_and!; [done | done |]. by intros e' [= <-].
Qed.

End Start.

(** ** The scenarios *)

Import Scenario.

(** C1 (as the code has it): with the angles
    [0.0, -10.0, -20.0, 10.0, 20.0] and start angle 0.0 the pivot is at
    index 0 and the order is [[1;2;3;4;0]]; the frames are written in
    storage order, frame [i] under order index [order[i]]: the pivot
    frame 0 (angle 0.0) first, as [..._001[0.0]_fractions.mrc], frame 1
    (angle -10.0) second, as [..._002[-10.0]_fractions.mrc], and frame 4
    (angle 20.0) last, as [..._000[20.0]_fractions.mrc]. *)
Theorem C1_scenario_outputs :
  parse_meta meta_0 = Returned (vars_with (dec false 0 1))
  ∧ parse_angles tilt_5 = Returned angles_5
  ∧ PyFloat.repr <$> angles_5 = ["0.0"; "-10.0"; "-20.0"; "10.0"; "20.0"]
  ∧ index angles_5 (dec false 0 1) = Some 0
  ∧ order_of (0 + 1) (length angles_5) = [1; 2; 3; 4; 0]
  ∧ ∃ w', split_mrc frames5 meta_0 tilt_5 basename dir empty_dir = (Returned tt, w')
      ∧ echoed w' =
          ["Writing out /out/g_TS_000_001[0.0]_fractions.mrc...";
           "Writing out /out/g_TS_000_002[-10.0]_fractions.mrc...";
           "Writing out /out/g_TS_000_003[-20.0]_fractions.mrc...";
           "Writing out /out/g_TS_000_004[10.0]_fractions.mrc...";
           "Writing out /out/g_TS_000_000[20.0]_fractions.mrc..."]
      ∧ files w' !! "/out/g_TS_000_001[0.0]_fractions.mrc" = Some 0
      ∧ files w' !! "/out/g_TS_000_002[-10.0]_fractions.mrc" = Some 1
      ∧ files w' !! "/out/g_TS_000_003[-20.0]_fractions.mrc" = Some 2
      ∧ files w' !! "/out/g_TS_000_004[10.0]_fractions.mrc" = Some 3
      ∧ files w' !! "/out/g_TS_000_000[20.0]_fractions.mrc" = Some 4
      ∧ size (files w') = 5.
Proof.
  split_and!; try by vm_compute.
  eexists. split; [by vm_compute |]. split_and!; by vm_compute.
Qed.

(** C1 as stated fails: frame 1 is not written under order index 001,
    and the pivot frame is not written last under order index 004. *)
Lemma C1_counterexample :
  ¬ ∃ w', split_mrc frames5 meta_0 tilt_5 basename dir empty_dir = (Returned tt, w')
      ∧ files w' !! "/out/g_TS_000_001[-10.0]_fractions.mrc" = Some 1
      ∧ files w' !! "/out/g_TS_000_004[0.0]_fractions.mrc" = Some 0
      ∧ last (echoed w') = Some "Writing out /out/g_TS_000_004[0.0]_fractions.mrc...".
Proof.
  intros (w' & Hrun & H1 & _). vm_compute in Hrun.
  injection Hrun as <-. vm_compute in H1. discriminate H1.
Qed.

(** C2 as stated fails: a start angle of 3.45 is not found in the angle
    list [3.5], although rounded to one decimal place it would be. *)
Lemma C2_counterexample :
  parse_meta meta_345 = Returned (vars_with (dec false 345 2))
  ∧ parse_angles tilt_35 = Returned [dec false 35 1]
  ∧ PyFloat.repr (dec false 345 2) = "3.45"
  ∧ PyFloat.round1 (dec false 345 2) = dec false 35 1
  ∧ index [dec false 35 1] (PyFloat.round1 (dec false 345 2)) = Some 0
  ∧ index [dec false 35 1] (dec false 345 2) = None
  ∧ split_mrc [0] meta_345 tilt_35 basename dir empty_dir
    = (Raised ValueError_index, empty_dir)
  ∧ ¬ ∃ vars angles start i,
        parse_meta meta_345 = Returned vars ∧ start_angle vars = Some start
        ∧ parse_angles tilt_35 = Returned angles
        ∧ index angles start = Some i.
Proof.
  split_and!; try by vm_compute.
  intros (vars & angles & start & i & Hmeta & Hstart & Hangles & Hidx).
  vm_compute in Hmeta. injection Hmeta as <-.
  vm_compute in Hstart. injection Hstart as <-.
  vm_compute in Hangles. injection Hangles as <-.
  vm_compute in Hidx. discriminate Hidx.
Qed.

(** C3 as stated fails: with 4 angles and 5 frames nothing is raised;
    4 files are written. *)
Lemma C3_counterexample :
  length angles_4 = 4 ∧ length frames5 = 5
  ∧ parse_angles tilt_4 = Returned angles_4
  ∧ (∃ w', split_mrc frames5 meta_0 tilt_4 basename dir empty_dir = (Returned tt, w')
           ∧ size (files w') = 4)
  ∧ ¬ ∃ e w', split_mrc frames5 meta_0 tilt_4 basename dir empty_dir = (Raised e, w').
Proof.
  split_and!; try by vm_compute.
  - eexists. split; by vm_compute.
  - intros (e & w' & Hrun). vm_compute in Hrun. discriminate Hrun.
Qed.

(** C4 as stated fails: of two lines giving the start angle, the second
    one is kept. *)
Lemma C4_counterexample :
  PyStr.readlines meta_twice
    = [text ["Start tilt angle 1.0"]; text ["Start tilt angle 2.0"]]
  ∧ start_angle_re (text ["Start tilt angle 1.0"]) = Some "1.0"
  ∧ start_angle_re (text ["Start tilt angle 2.0"]) = Some "2.0"
  ∧ parse_meta meta_twice = Returned (vars_with (dec false 20 1))
  ∧ PyFloat.of_string "2.0" = Some (dec false 20 1)
  ∧ PyFloat.of_string "1.0" = Some (dec false 10 1)
  ∧ PyFloat.eqb (dec false 20 1) (dec false 10 1) = false
  ∧ ¬ ∃ vars first,
        parse_meta meta_twice = Returned vars
        ∧ PyFloat.of_string "1.0" = Some first
        ∧ start_angle vars = Some first.
Proof.
  split_and!; try by vm_compute.
  intros (vars & first & Hmeta & Hfirst & Hstart).
  vm_compute in Hmeta. injection Hmeta as <-.
  vm_compute in Hfirst. injection Hfirst as <-.
  vm_compute in Hstart. discriminate Hstart.
Qed.

(** C5 as stated fails: with an empty angle list [split_mrc] does not
    return, it raises the [ValueError] of [list.index]. *)
Lemma C5_counterexample :
  parse_angles "" = Returned []
  ∧ split_mrc frames5 meta_0 "" basename dir empty_dir
    = (Raised ValueError_index, empty_dir)
  ∧ ¬ ∃ w', split_mrc frames5 meta_0 "" basename dir empty_dir = (Returned tt, w').
Proof.
  split_and!; try by vm_compute.
  intros (w' & Hrun). vm_compute in Hrun. discriminate Hrun.
Qed.

(** C7 as stated fails: with as many frames as angles and the pivot
    found, a run into a directory where the third output file exists
    raises after two files: the names of the files it produced carry
    two of the five angles. *)
Lemma C7_counterexample :
  length frames5 = length angles_5
  ∧ parse_angles tilt_5 = Returned angles_5
  ∧ index angles_5 (dec false 0 1) = Some 0
  ∧ (∃ w', split_mrc frames5 meta_0 tilt_5 basename dir taken_dir
           = (Raised (ValueError_exists "/out/g_TS_000_003[-20.0]_fractions.mrc"), w')
         ∧ Spec.created taken_dir w'
           ≡ₚ ["/out/g_TS_000_001[0.0]_fractions.mrc";
               "/out/g_TS_000_002[-10.0]_fractions.mrc"]
         ∧ echoed w' = ["Writing out /out/g_TS_000_001[0.0]_fractions.mrc...";
                        "Writing out /out/g_TS_000_002[-10.0]_fractions.mrc..."])
  ∧ ¬ ∃ r w', split_mrc frames5 meta_0 tilt_5 basename dir taken_dir = (r, w')
        ∧ Spec.angle_text <$> Spec.created taken_dir w'
          ≡ₚ Some ∘ PyFloat.repr <$> angles_5.
Proof.
  split_and!; try by vm_compute.
  - eexists. split; [by vm_compute |]. split; [| by vm_compute].
    apply (bool_decide_unpack _). by vm_compute.
  - intros (r & w' & Hrun & Hperm). vm_compute in Hrun. injection Hrun as <- <-.
    apply Permutation_length in Hperm. vm_compute in Hperm. discriminate Hperm.
Qed.

(** C10 as stated fails: a start angle written without fractional part
    does not keep the line from matching when a decimal number comes
    later on it; that number becomes the start angle, and [split_mrc]
    writes its files. *)
Lemma C10_counterexample :
  start_angle_re "Start tilt angle = 3 deg, step 1.5" = Some "1.5"
  ∧ parse_meta meta_int_step = Returned (vars_with (dec false 15 1))
  ∧ parse_angles tilt_15 = Returned [dec false 15 1; dec false 30 1]
  ∧ (∃ w', split_mrc [0; 1] meta_int_step tilt_15 basename dir empty_dir
           = (Returned tt, w')
         ∧ echoed w' = ["Writing out /out/g_TS_000_001[1.5]_fractions.mrc...";
                        "Writing out /out/g_TS_000_000[3.0]_fractions.mrc..."]
         ∧ size (files w') = 2)
  ∧ ¬ ∃ e w', split_mrc [0; 1] meta_int_step tilt_15 basename dir empty_dir
              = (Raised e, w').
Proof.
  split_and!; try by vm_compute.
  - eexists. split_and!; by vm_compute.
  - intros (e & w' & Hrun). vm_compute in Hrun. discriminate Hrun.
Qed.

(** ** The theorems at the scenarios *)

Lemma scenario_fresh (ts : list (nat * (nat * PyFloat.float))) :
  ∀ t, t ∈ ts → files empty_dir !! out_path dir basename t = None.
Proof. intros t _. apply lookup_empty. Qed.

Lemma C2_pivot_compares_unrounded_start_witness :
  split_mrc [0] meta_345 tilt_35 basename dir empty_dir
  = (Raised ValueError_index, empty_dir).
Proof.
  destruct (C2_pivot_compares_unrounded_start [0] meta_345 tilt_35 basename dir
              empty_dir (vars_with (dec false 345 2)) [dec false 35 1]
              (dec false 345 2))
    as (_ & _ & _ & H & _); [by vm_compute | by vm_compute | by vm_compute |].
  apply H. by vm_compute.
Defined.

Lemma C3_mismatch_truncates_witness :
  length (zip3 (order_of (0 + 1) (length angles_4)) frames5 angles_4) = 4.
Proof.
  destruct (C3_mismatch_truncates frames5 meta_0 tilt_4 basename dir empty_dir
              (vars_with (dec false 0 1)) angles_4 (dec false 0 1) 0)
    as (_ & H & _); [by vm_compute | by vm_compute | by vm_compute
                     | by vm_compute | done | apply scenario_fresh |].
  exact H.
Defined.

Lemma C4_last_occurrence_kept_witness :
  ∃ vars v, parse_meta meta_twice = Returned vars
            ∧ PyFloat.of_string "2.0" = Some v
            ∧ get Start_angle vars = Some v.
Proof.
  apply (C4_last_occurrence_kept meta_twice
           [text ["Start tilt angle 1.0"]] [] (text ["Start tilt angle 2.0"])).
  - by vm_compute.
  - by vm_compute.
  - intros later g' Hin. by apply elem_of_nil in Hin.
Defined.

Lemma C9_paths_distinct_witness :
  NoDup (out_path dir basename
           <$> zip3 (order_of (0 + 1) (length angles_5)) frames5 angles_5).
Proof.
  destruct (C9_paths_distinct frames5 meta_0 tilt_5 basename dir
              (vars_with (dec false 0 1)) angles_5 (dec false 0 1) 0)
    as (_ & _ & H & _); [by vm_compute | by vm_compute | by vm_compute
                         | by vm_compute | by vm_compute |].
  exact H.
Defined.

Lemma C5_empty_angle_list_raises_witness :
  split_mrc frames5 meta_int "" basename dir empty_dir
  = (Raised (UnboundLocalError "start_angle"), empty_dir).
Proof.
  destruct (C5_empty_angle_list_raises frames5 meta_int basename dir empty_dir)
    as (_ & _ & vars & Hmeta & _ & Hrun).
  vm_compute in Hmeta. injection Hmeta as <-. exact Hrun.
Defined.

Lemma C7_angles_preserved_witness :
  ∃ w', split_mrc frames5 meta_0 tilt_5 basename dir empty_dir = (Returned tt, w')
    ∧ Spec.angle_text <$> Spec.created empty_dir w'
      ≡ₚ [Some "0.0"; Some "-10.0"; Some "-20.0"; Some "10.0"; Some "20.0"]
    ∧ Spec.angle_value <$> Spec.created empty_dir w' ≡ₚ Some <$> angles_5.
Proof.
  destruct (C7_angles_preserved frames5 meta_0 tilt_5 basename dir
              (vars_with (dec false 0 1)) angles_5 (dec false 0 1) 0)
    as (_ & H & _); [by vm_compute | by vm_compute | by vm_compute
                     | by vm_compute | by vm_compute |].
  destruct (H empty_dir (scenario_fresh _)) as (w' & Hrun & _ & _ & Htext & Hvalue).
  exists w'. split_and!; [done | |].
  - etrans; [exact Htext |]. by vm_compute.
  - apply Hvalue. repeat constructor; by vm_compute.
Defined.

Lemma C8_parse_angles_witness :
  (∃ angles, parse_angles tilt_mixed = Returned angles
             ∧ PyFloat.repr <$> angles = ["3.0"; "-60.0"; "0.2"])
  ∧ raised (parse_angles tilt_blank).
Proof.
  split.
  - destruct (C8_parse_angles tilt_mixed [" 2.99 "; "-59.98"] "0.25")
      as (_ & _ & _ & H & _); [by vm_compute | by repeat constructor | by vm_compute |].
    eexists. split.
    + apply H. exists [dec false 299 2; dec true 5998 2; dec false 25 2].
      split; [| done]. repeat constructor; by vm_compute.
    + by vm_compute.
  - destruct (C8_parse_angles tilt_blank ["1.0"; ""] "")
      as (_ & _ & H & _); [by vm_compute | by repeat constructor | by vm_compute |].
    apply H. exists "". split; [| by vm_compute].
    apply (list_elem_of_lookup_2 _ 1). by vm_compute.
Defined.

Lemma C10_integer_value_not_extracted_witness :
  split_mrc frames5 meta_int tilt_5 basename dir empty_dir
  = (Raised (UnboundLocalError "start_angle"), empty_dir).
Proof.
  destruct (C10_integer_value_not_extracted frames5 meta_int tilt_5 basename dir
              empty_dir) as (_ & _ & _ & _ & _ & vars & Hmeta & _ & H).
  vm_compute in Hmeta. injection Hmeta as <-.
  destruct (H eq_refl) as (e & Hrun & He & _).
  rewrite (He angles_5) in Hrun by by vm_compute. exact Hrun.
Defined.

(* ===================================================================== *)
(** * Further properties of [split_mrc]                                   *)
(* ===================================================================== *)

(** ** What the loop of line 71 does to the directory in general *)

(** Reading the angle list raises nothing but the [ValueError] of
    [float]. *)
Lemma angles_of_lines_exn (lines : list string) (e : exn) :
  angles_of_lines lines = Raised e → ∃ s, e = ValueError_float s.
Proof.
  induction lines as [|x lines IH]; simpl; [done |].
  unfold_outcome. unfold py_float.
  destruct (PyFloat.of_string (PyStr.strip x)); [| intros [= <-]; eauto].
  destruct (angles_of_lines lines); [done |].
  intros [= <-]. by apply IH.
Qed.

Section Loop.

Context {image : Type}.
Implicit Types (w : world image) (ts : list (nat * (image * PyFloat.float))).
Implicit Types (mrc : list image) (angles : list PyFloat.float).

(** Files that exist are never replaced or removed by the loop. *)
Lemma for_each_emit_keeps (dir basename : string) ts w (path : string) (x : image) :
  files w !! path = Some x →
  files (for_each (emit dir basename) ts w).2 !! path = Some x.
Proof.
  intros Hx. destruct (for_each_emit_prefix dir basename ts w)
    as (k & _ & Hfresh & -> & _). simpl.
  rewrite files_after_other; [done |].
  intros (t & -> & Hin)%list_elem_of_fmap.
  rewrite (Hfresh t Hin) in Hx. done.
Qed.

(** The outcome of [split_mrc] on any input: it raises before the loop
    and leaves the world as it was, or it runs the loop. *)
Lemma split_mrc_cases mrc (meta_text tilt_text basename dir : string) w :
  (∃ e, split_mrc mrc meta_text tilt_text basename dir w = (Raised e, w)
        ∧ ∀ path, e ≠ ValueError_exists path)
  ∨ (∃ vars angles start i,
       parse_meta meta_text = Returned vars ∧ start_angle vars = Some start
       ∧ parse_angles tilt_text = Returned angles
       ∧ index angles start = Some i ∧ mrc ≠ []
       ∧ split_mrc mrc meta_text tilt_text basename dir w
         = for_each (emit dir basename)
             (zip3 (order_of (i + 1) (length angles)) mrc angles) w).
Proof.
  destruct (parse_meta meta_text) as [vars|e] eqn:Hmeta.
  2: { left. exists e. unfold split_mrc, io_bind, pure. rewrite Hmeta.
       split; [done |]. intros path ->.
       destruct (meta_loop_total unbound (PyStr.readlines meta_text)) as [l Hl].
       unfold parse_meta in Hmeta. congruence. }
  destruct (parse_angles tilt_text) as [angles|e] eqn:Hangles.
  2: { left. exists e. unfold split_mrc, io_bind, pure. rewrite Hmeta, Hangles.
       split; [done |]. intros path ->.
       apply angles_of_lines_exn in Hangles as [s Hs]. done. }
  destruct (start_angle vars) as [start|] eqn:Hstart.
  2: { left. eexists. unfold split_mrc, io_bind, pure, raise.
       rewrite Hmeta, Hangles, Hstart. split; [done |]. done. }
  destruct (index angles start) as [i|] eqn:Hidx.
  2: { left. eexists. unfold split_mrc, io_bind, pure, raise, io_ret.
       rewrite Hmeta, Hangles, Hstart, Hidx. split; [done |]. done. }
  destruct mrc as [|img mrc].
  { left. eexists. unfold split_mrc, io_bind, pure, raise, io_ret.
    rewrite Hmeta, Hangles, Hstart, Hidx. simpl. split; [done |]. done. }
  right. exists vars, angles, start, i. split_and!; try done.
  by eapply split_mrc_loop.
Qed.

End Loop.

Section Extras.

Context {image : Type}.
Implicit Types (w : world image) (mrc : list image).

(** X1: whatever its arguments and however it ends, [split_mrc] never
    replaces or removes a file that is on disk: each path that held a
    file before the call holds the same file after it. *)
Theorem split_mrc_keeps_existing_files mrc
    (meta_text tilt_text basename dir : string) w (path : string) (x : image) :
  files w !! path = Some x →
  files (split_mrc mrc meta_text tilt_text basename dir w).2 !! path = Some x.
Proof.
  intros Hx.
  destruct (split_mrc_cases mrc meta_text tilt_text basename dir w)
    as [(e & -> & _) | (vars & angles & start & i & _ & _ & _ & _ & _ & ->)].
  - done.
  - by apply for_each_emit_keeps.
Qed.

(** X2: the exception that [split_mrc] raises tells where it stopped.
    The [ValueError] of [float] comes from a line of the angle list, the
    [UnboundLocalError] is that of [start_angle], left unbound by the
    parameters file, the [ValueError] of [list.index] means that the
    start angle is not in the angle list, the [ZeroDivisionError] that
    the stack has no frame: all four are raised before the loop of line
    71, and nothing is written or echoed. The [ValueError] of
    [mrcfile.new] names the path of a triple of the loop that held a
    file before the call. *)
Theorem split_mrc_raises_early_without_effect mrc
    (meta_text tilt_text basename dir : string) w (e : exn) (w' : world image) :
  split_mrc mrc meta_text tilt_text basename dir w = (Raised e, w') →
  ∃ vars, parse_meta meta_text = Returned vars ∧
  match e with
  | ValueError_float s =>
      w' = w ∧ parse_angles tilt_text = Raised (ValueError_float s)
  | UnboundLocalError name =>
      w' = w ∧ name = "start_angle" ∧ start_angle vars = None
      ∧ ∃ angles, parse_angles tilt_text = Returned angles
  | ValueError_index =>
      w' = w
      ∧ ∃ angles start, parse_angles tilt_text = Returned angles
          ∧ start_angle vars = Some start ∧ index angles start = None
  | ZeroDivisionError =>
      w' = w ∧ mrc = []
      ∧ ∃ angles start i, parse_angles tilt_text = Returned angles
          ∧ start_angle vars = Some start ∧ index angles start = Some i
  | ValueError_exists path =>
      ∃ angles start i t, parse_angles tilt_text = Returned angles
        ∧ start_angle vars = Some start ∧ index angles start = Some i
        ∧ t ∈ zip3 (order_of (i + 1) (length angles)) mrc angles
        ∧ path = out_path dir basename t
        ∧ is_Some (files w !! path)
  end.
Proof.
  intros Hrun.
  destruct (meta_loop_total unbound (PyStr.readlines meta_text)) as [vars Hmeta].
  fold (parse_meta meta_text) in Hmeta. exists vars. split; [done |].
  destruct (parse_angles tilt_text) as [angles|e0] eqn:Hangles.
  2: { unfold split_mrc, io_bind, pure in Hrun. rewrite Hmeta, Hangles in Hrun.
       injection Hrun as <- <-.
       destruct (angles_of_lines_exn _ _ Hangles) as [s ->]. done. }
  destruct (start_angle vars) as [start|] eqn:Hstart.
  2: { unfold split_mrc, io_bind, pure, raise in Hrun.
       rewrite Hmeta, Hangles, Hstart in Hrun. injection Hrun as <- <-.
       split_and!; [done | done | done | by eexists]. }
  destruct (index angles start) as [i|] eqn:Hidx.
  2: { unfold split_mrc, io_bind, pure, raise, io_ret in Hrun.
       rewrite Hmeta, Hangles, Hstart, Hidx in Hrun. injection Hrun as <- <-.
       split; [done |]. by exists angles, start. }
  destruct mrc as [|img mrc].
  { unfold split_mrc, io_bind, pure, raise, io_ret in Hrun.
    rewrite Hmeta, Hangles, Hstart, Hidx in Hrun. injection Hrun as <- <-.
    split_and!; [done | done |]. by exists angles, start, i. }
  rewrite (split_mrc_loop _ _ _ _ _ _ _ _ _ _ Hmeta Hstart Hangles Hidx) in Hrun
    by done.
  set (ts := zip3 (order_of (i + 1) (length angles)) (img :: mrc) angles) in *.
  destruct (for_each_emit_prefix dir basename ts w) as (k & _ & _ & _ & Hres).
  rewrite Hrun in Hres. simpl in Hres. destruct Hres as (t & Hkt & -> & Hafter).
  exists angles, start, i, t.
  split_and!; [done | done | done | by eapply list_elem_of_lookup_2 | done |].
  rewrite files_after_other in Hafter; [done |].
  intros (t' & Heqp & Hin)%list_elem_of_fmap.
  apply out_path_inj in Heqp.
  apply list_elem_of_lookup_1 in Hin as [j Hj].
  apply lookup_take_Some in Hj as [Hj Hjk].
  assert (Hnodup : NoDup ts.*1) by apply zip3_NoDup_fst, order_of_NoDup.
  assert (Hjk' : j = k); [| lia].
  eapply NoDup_lookup; [exact Hnodup | |].
  - rewrite list_lookup_fmap, Hj. done.
  - rewrite list_lookup_fmap, Hkt. simpl. by rewrite Heqp.
Qed.

(** X3: once the loop of line 71 is reached, what [split_mrc] has
    written and echoed when it ends are the first [k] triples of
    [zip(order, slices, angles)], in the order of the loop, each echoed
    right after it was written and under the path it was written to: all
    of them when it returns, and those before the first triple whose
    path held a file when it raises. *)
Theorem split_mrc_echoes_what_it_writes mrc
    (meta_text tilt_text basename dir : string) w
    (vars : locals) (angles : list PyFloat.float) (start : PyFloat.float) (i : nat) :
  parse_meta meta_text = Returned vars → start_angle vars = Some start →
  parse_angles tilt_text = Returned angles → index angles start = Some i →
  mrc ≠ [] →
  let ts := zip3 (order_of (i + 1) (length angles)) mrc angles in
  let run := split_mrc mrc meta_text tilt_text basename dir w in
  ∃ k, k ≤ length ts
    ∧ files run.2 = files_after dir basename (take k ts) (files w)
    ∧ echoed run.2 = echoed w ++ (out_msg dir basename <$> take k ts)
    ∧ Spec.created w run.2 ≡ₚ out_path dir basename <$> take k ts
    ∧ size (files run.2) = size (files w) + k
    ∧ (∀ t, t ∈ take k ts → files w !! out_path dir basename t = None)
    ∧ (run.1 = Returned tt ↔ k = length ts)
    ∧ (∀ t, ts !! k = Some t →
         is_Some (files w !! out_path dir basename t)
         ∧ run.1 = Raised (ValueError_exists (out_path dir basename t))).
Proof.
  intros Hmeta Hstart Hangles Hidx Hmrc ts run.
  assert (Hrun : run = for_each (emit dir basename) ts w)
    by by apply (split_mrc_loop _ _ _ _ _ _ _ _ _ _ Hmeta Hstart Hangles Hidx).
  assert (Hnodup : NoDup ts.*1) by apply zip3_NoDup_fst, order_of_NoDup.
  destruct (for_each_emit_prefix dir basename ts w) as (k & Hk & Hfresh & Hw & Hres).
  rewrite <- Hrun in Hw, Hres. exists k.
  assert (Hnd : NoDup (take k ts).*1).
  { rewrite fmap_take. eapply sublist_NoDup; [done | apply sublist_take]. }
  assert (Hcreated : Spec.created w run.2 ≡ₚ out_path dir basename <$> take k ts).
  { rewrite Hw. by apply created_files_after. }
  assert (Hthere : ∀ t, ts !! k = Some t →
            files_after dir basename (take k ts) (files w) !! out_path dir basename t
            = files w !! out_path dir basename t).
  { intros t Hkt. apply files_after_other.
    intros (t' & Heqp & Hin)%list_elem_of_fmap.
    apply out_path_inj in Heqp.
    apply list_elem_of_lookup_1 in Hin as [j Hj].
    apply lookup_take_Some in Hj as [Hj Hjk].
    assert (Hjk' : j = k); [| lia].
    eapply NoDup_lookup; [exact Hnodup | |].
    - rewrite list_lookup_fmap, Hj. done.
    - rewrite list_lookup_fmap, Hkt. simpl. by rewrite Heqp. }
  split_and!; try done.
  - by rewrite Hw.
  - by rewrite Hw.
  - rewrite Hw. simpl. clear Hw Hres Hcreated Hthere.
    assert (Hsize : ∀ (l : list (nat * (image * PyFloat.float))) (m : gmap string image),
      NoDup l.*1 → (∀ t, t ∈ l → m !! out_path dir basename t = None) →
      size (files_after dir basename l m) = size m + length l).
    { induction l as [|t l IH]; intros m Hl Hm; [simpl; lia |].
      apply NoDup_cons in Hl as [Hnotin Hl].
      unfold files_after. simpl.
      fold (files_after dir basename l (<[out_path dir basename t := t.2.1]> m)).
      rewrite IH; [| done |].
      - rewrite map_size_insert_None by (apply Hm; by left). lia.
      - intros t' Hin. rewrite lookup_insert_ne; [apply Hm; by right |].
        intros Heq%out_path_inj. apply Hnotin. rewrite Heq.
        by apply list_elem_of_fmap_2. }
    rewrite Hsize by done. rewrite length_take. lia.
  - destruct run.1 as [[]|e] eqn:Hr.
    + done.
    + destruct Hres as (t & Hkt & _). apply lookup_lt_Some in Hkt.
      split; [done | lia].
  - intros t Hkt. apply lookup_lt_Some in Hkt as Hklt.
    destruct run.1 as [[]|e]; [lia |].
    destruct Hres as (t' & Hkt' & -> & Hafter).
    assert (t' = t) as -> by congruence.
    rewrite (Hthere t Hkt) in Hafter. done.
Qed.

(** X4: [split_mrc] cannot be run twice into the same directory: after a
    run that wrote its files, the same call raises the [ValueError] of
    [mrcfile.new] on the first path and changes nothing. *)
Theorem split_mrc_rerun_raises mrc (meta_text tilt_text basename dir : string) w
    (vars : locals) (angles : list PyFloat.float) (start : PyFloat.float) (i : nat) :
  parse_meta meta_text = Returned vars → start_angle vars = Some start →
  parse_angles tilt_text = Returned angles → index angles start = Some i →
  mrc ≠ [] →
  let ts := zip3 (order_of (i + 1) (length angles)) mrc angles in
  (∀ t, t ∈ ts → files w !! out_path dir basename t = None) →
  ∃ w1 t0,
    split_mrc mrc meta_text tilt_text basename dir w = (Returned tt, w1)
    ∧ ts !! 0 = Some t0
    ∧ split_mrc mrc meta_text tilt_text basename dir w1
      = (Raised (ValueError_exists (out_path dir basename t0)), w1).
Proof.
  intros Hmeta Hstart Hangles Hidx Hmrc ts Hfresh.
  pose proof (index_lt _ _ _ Hidx) as Hi.
  assert (Hnd : NoDup ts.*1) by apply zip3_NoDup_fst, order_of_NoDup.
  assert (Hlen : 0 < length ts).
  { unfold ts. rewrite zip3_length by (apply order_of_length; lia).
    destruct mrc; [done |]. simpl. lia. }
  destruct (lookup_lt_is_Some_2 ts 0 Hlen) as [t0 Ht0].
  eexists _, t0. split_and!.
  - rewrite (split_mrc_loop _ _ _ _ _ _ _ _ _ _ Hmeta Hstart Hangles Hidx Hmrc).
    by apply for_each_emit_fresh.
  - done.
  - rewrite (split_mrc_loop _ _ _ _ _ _ _ _ _ _ Hmeta Hstart Hangles Hidx Hmrc).
    fold ts.
    assert (Hthere : is_Some (files_after dir basename ts (files w)
                                !! out_path dir basename t0)).
    { rewrite (files_after_lookup dir basename ts (files w) 0 t0); done. }
    clear Hfresh Hnd Hlen. destruct ts as [|t ts']; [done |].
    injection Ht0 as ->. cbn [for_each]. unfold io_bind.
    by rewrite emit_exists.
Qed.

End Extras.

(** ** These properties at the scenarios *)

Lemma split_mrc_keeps_existing_files_witness :
  files (split_mrc frames5 meta_0 tilt_5 basename dir
           (World {["/out/notes.mrc" := 9]} [])).2 !! "/out/notes.mrc" = Some 9.
Proof.
  apply (split_mrc_keeps_existing_files frames5 meta_0 tilt_5 basename dir).
  by vm_compute.
Defined.

Lemma split_mrc_raises_early_without_effect_witness :
  (∃ vars, parse_meta meta_0 = Returned vars
     ∧ ∃ angles start i t, parse_angles tilt_5 = Returned angles
         ∧ start_angle vars = Some start ∧ index angles start = Some i
         ∧ t ∈ zip3 (order_of (i + 1) (length angles)) frames5 angles
         ∧ "/out/g_TS_000_003[-20.0]_fractions.mrc" = out_path dir basename t
         ∧ is_Some (files taken_dir !! "/out/g_TS_000_003[-20.0]_fractions.mrc"))
  ∧ (∃ vars, parse_meta meta_0 = Returned vars
       ∧ empty_dir = empty_dir
       ∧ ∃ angles start, parse_angles "" = Returned angles
           ∧ start_angle vars = Some start ∧ index angles start = None).
Proof.
  split.
  - apply (split_mrc_raises_early_without_effect frames5 meta_0 tilt_5 basename dir
             taken_dir (ValueError_exists "/out/g_TS_000_003[-20.0]_fractions.mrc")
             (World {["/out/g_TS_000_003[-20.0]_fractions.mrc" := 9;
                      "/out/g_TS_000_001[0.0]_fractions.mrc" := 0;
                      "/out/g_TS_000_002[-10.0]_fractions.mrc" := 1]}
                    ["Writing out /out/g_TS_000_001[0.0]_fractions.mrc...";
                     "Writing out /out/g_TS_000_002[-10.0]_fractions.mrc..."])).
    by vm_compute.
  - apply (split_mrc_raises_early_without_effect frames5 meta_0 "" basename dir
             empty_dir ValueError_index empty_dir).
    by vm_compute.
Defined.

Lemma split_mrc_echoes_what_it_writes_witness :
  let ts := zip3 (order_of (0 + 1) (length angles_5)) frames5 angles_5 in
  let run := split_mrc frames5 meta_0 tilt_5 basename dir taken_dir in
  ∃ k, k ≤ length ts
    ∧ files run.2 = files_after dir basename (take k ts) (files taken_dir)
    ∧ echoed run.2 = echoed taken_dir ++ (out_msg dir basename <$> take k ts)
    ∧ Spec.created taken_dir run.2 ≡ₚ out_path dir basename <$> take k ts
    ∧ size (files run.2) = size (files taken_dir) + k
    ∧ (∀ t, t ∈ take k ts → files taken_dir !! out_path dir basename t = None)
    ∧ (run.1 = Returned tt ↔ k = length ts)
    ∧ (∀ t, ts !! k = Some t →
         is_Some (files taken_dir !! out_path dir basename t)
         ∧ run.1 = Raised (ValueError_exists (out_path dir basename t))).
Proof.
  apply (split_mrc_echoes_what_it_writes frames5 meta_0 tilt_5 basename dir taken_dir
           (vars_with (dec false 0 1)) angles_5 (dec false 0 1) 0);
    [by vm_compute | by vm_compute | by vm_compute | by vm_compute | done].
Defined.

Lemma split_mrc_rerun_raises_witness :
  ∃ w1 t0,
    split_mrc frames5 meta_0 tilt_5 basename dir empty_dir = (Returned tt, w1)
    ∧ zip3 (order_of (0 + 1) (length angles_5)) frames5 angles_5 !! 0 = Some t0
    ∧ split_mrc frames5 meta_0 tilt_5 basename dir w1
      = (Raised (ValueError_exists (out_path dir basename t0)), w1).
Proof.
  apply (split_mrc_rerun_raises frames5 meta_0 tilt_5 basename dir empty_dir
           (vars_with (dec false 0 1)) angles_5 (dec false 0 1) 0);
    [by vm_compute | by vm_compute | by vm_compute | by vm_compute | done |].
  apply scenario_fresh.
Defined.

(** ** More on the patterns, the pivot and the order index *)

(** X5: a pattern extracts a number that stands in the line after the
    label, with no newline between the label and the number; a line in
    which the label does not occur gives no match. *)
Theorem search_finds_number_after_label (label line g : string) :
  Re.search label line = Some g →
  ∃ pre mid post,
    line = pre +:+ label +:+ mid +:+ g +:+ post
    ∧ PyStr.occurs PyStr.newline mid = false
    ∧ Re.decimal_text g.
Proof. apply search_occurrence. Qed.

Lemma search_finds_number_after_label_witness :
  ∃ pre mid post,
    "Start tilt angle: -12.50 deg"
    = pre +:+ "Start tilt angle" +:+ mid +:+ "-12.50" +:+ post
    ∧ PyStr.occurs PyStr.newline mid = false
    ∧ Re.decimal_text "-12.50".
Proof.
  apply (search_finds_number_after_label "Start tilt angle"
           "Start tilt angle: -12.50 deg" "-12.50").
  by vm_compute.
Defined.

(** [==] holds between a float and itself, NaN apart. *)
Lemma eqb_refl (x : PyFloat.float) : x ≠ S754_nan → PyFloat.eqb x x = true.
Proof.
  intros Hx. unfold PyFloat.eqb, SFeqb.
  destruct x as [s|s| |s m e]; [by destruct s | by destruct s | done |].
  simpl. rewrite Z.compare_refl.
  assert (Hm : Pos.compare_cont Eq m m = Eq) by apply Pos.compare_cont_refl.
  rewrite Hm. by destruct s.
Qed.

(** What [float] reads in a decimal literal is never NaN. *)
Lemma of_decimal_not_nan (s : bool) (n : N) (k : Z) :
  PyFloat.of_decimal s n k ≠ S754_nan.
Proof.
  assert (Haux : ∀ sx mx ex lx,
    (0 <= mx)%Z → binary_round_aux PyFloat.prec PyFloat.emax sx mx ex lx ≠ S754_nan).
  { intros sx mx ex lx Hmx. unfold binary_round_aux.
    destruct (shr_fexp _ _ mx ex lx) as [mrs' e'] eqn:H1.
    destruct (shr_fexp _ _ _ e' loc_Exact) as [mrs'' e''] eqn:H2.
    destruct (shr_m mrs'') as [|p|p] eqn:Hm; [done | by case_match |].
    exfalso.
    assert (Hshr1 : ∀ r, (0 <= shr_m r)%Z → (0 <= shr_m (shr_1 r))%Z).
    { intros [m r s']; simpl. destruct m as [|[q|q|]|[q|q|]]; simpl; lia. }
    assert (Hiter : ∀ q r, (0 <= shr_m r)%Z → (0 <= shr_m (SpecFloat.iter_pos shr_1 q r))%Z).
    { induction q as [q IH|q IH|]; intros r Hr; simpl; auto. }
    assert (Hshr : ∀ r e d r' e', (0 <= shr_m r)%Z → shr r e d = (r', e') →
                                   (0 <= shr_m r')%Z).
    { intros r e d r' e0 Hr. unfold shr. destruct d; intros [= <- <-]; auto. }
    assert (H1' : (0 <= shr_m mrs')%Z).
    { unfold shr_fexp in H1. eapply Hshr; [| exact H1].
      unfold shr_record_of_loc. by destruct lx as [|[]]. }
    assert (H2' : (0 <= shr_m mrs'')%Z).
    { unfold shr_fexp in H2. eapply Hshr; [| exact H2]. simpl.
      unfold round_nearest_even.
      destruct (loc_of_shr_record mrs') as [|[]]; try case_match; lia. }
    lia. }
  unfold PyFloat.of_decimal. destruct n as [|p]; [done |].
  assert (Hratio : ∀ a b, PyFloat.of_ratio s a b ≠ S754_nan).
  { intros a b. unfold PyFloat.of_ratio, SFdiv.
    destruct (SFdiv_core_binary _ _ (Z.pos a) 0 (Z.pos b) 0) as [[mz ez] lz] eqn:Hdiv.
    apply Haux. unfold SFdiv_core_binary in Hdiv.
    destruct (Z.div_eucl _ (Z.pos b)) as [q r] eqn:Hqr.
    injection Hdiv as <- _ _.
    match type of Hqr with Z.div_eucl ?m _ = _ =>
      assert (Hm : (0 <= m)%Z) by (case_match; try lia; apply Z.shiftl_nonneg; lia);
      pose proof (Z_div_mod m (Z.pos b) eq_refl) as Hdm end.
    rewrite Hqr in Hdm. nia. }
  case_match; apply Hratio.
Qed.

(** [float(match.group(1))] is the binary64 nearest to a decimal. *)
Lemma of_string_decimal_value (g : string) :
  Re.decimal_text g →
  ∃ neg n k, PyFloat.of_string g = Some (PyFloat.of_decimal neg n k).
Proof.
  intros (sign & int & frac & -> & Hsign & Hint & Hfrac & Hdi & Hdf).
  destruct int as [|c int]; [done |].
  simpl in Hdi. apply andb_true_iff in Hdi as [Hc Hdi].
  destruct (digit_facts c Hc) as (Hsp & Hlow & Hm & Hp & Hu & Hi & Hn).
  change (sign +:+ String c int +:+ "." +:+ frac)
    with (sign +:+ String c (int +:+ "." +:+ frac)).
  unfold PyFloat.of_string. rewrite strip_decimal by done.
  assert (Hbody : ∀ neg, ∃ n k,
    (let word := PyStr.lower_str (String c (int +:+ "." +:+ frac)) in
      if String.eqb word "inf" || String.eqb word "infinity"
      then Some (PyFloat.inf neg)
      else if String.eqb word "nan" then Some PyFloat.nan
      else '(n, k) ← PyFloat.parse_number (String c (int +:+ "." +:+ frac));
           Some (PyFloat.of_decimal neg n k))
    = Some (PyFloat.of_decimal neg n k)).
  { intros neg. cbn [PyStr.lower_str String.eqb]. rewrite Hlow, Hi, Hn.
    cbn [andb orb]. rewrite parse_number_decimal by done. simpl. eauto. }
  destruct Hsign as [-> | [-> | ->]].
  - change ("" +:+ String c (int +:+ "." +:+ frac))
      with (String c (int +:+ "." +:+ frac)).
    cbn [PyFloat.parse_sign]. rewrite Hm, Hp.
    destruct (Hbody false) as (n & k & H). exists false, n, k. exact H.
  - destruct (Hbody false) as (n & k & H). exists false, n, k. exact H.
  - destruct (Hbody true) as (n & k & H). exists true, n, k. exact H.
Qed.

(** X6: the start angle read from the parameters file is never NaN, so
    it is equal to itself: when it is one of the angles of the list, the
    pivot is found, at or before its position. *)
Theorem pivot_found_when_start_listed (meta_text : string) (vars : locals)
    (start : PyFloat.float) (angles : list PyFloat.float) (j : nat) :
  parse_meta meta_text = Returned vars → start_angle vars = Some start →
  angles !! j = Some start →
  start ≠ S754_nan ∧ ∃ i, index angles start = Some i ∧ i ≤ j.
Proof.
  intros Hmeta Hstart Hj.
  assert (Hnan : start ≠ S754_nan).
  { destruct (meta_loop_bound Start_angle _ _ _ start Hmeta Hstart)
      as [Hun | (line & g & _ & Hb & Hv)]; [done |].
    destruct (branch_search _ _ _ Hb) as [label Hs].
    apply search_decimal_text, of_string_decimal_value in Hs as (neg & n & k & Hg).
    rewrite Hg in Hv. injection Hv as <-. apply of_decimal_not_nan. }
  split; [done |].
  destruct (index angles start) as [i|] eqn:Hidx.
  - exists i. split; [done |].
    apply index_Some in Hidx as [_ Hfirst].
    destruct (decide (i ≤ j)) as [|Hgt]; [done |].
    exfalso. pose proof (eqb_refl start Hnan) as Hrefl.
    rewrite (Hfirst j start) in Hrefl by (done || lia). done.
  - exfalso. pose proof (proj1 (index_None _ _) Hidx start) as Hno.
    rewrite eqb_refl in Hno by done.
    discriminate Hno. by eapply list_elem_of_lookup_2.
Qed.

Lemma pivot_found_when_start_listed_witness :
  dec false 0 1 ≠ S754_nan ∧ ∃ i, index angles_5 (dec false 0 1) = Some i ∧ i ≤ 0.
Proof.
  apply (pivot_found_when_start_listed meta_0 (vars_with (dec false 0 1))
           (dec false 0 1) angles_5 0); by vm_compute.
Defined.

(** X7: the order index in a file name is decimal digits only, at least
    three of them and exactly three below 1000, and reads back as the
    number it stands for. *)
Theorem format_03_digits (n : nat) :
  PyStr.all_digits (PyStr.format_03 n) = true
  ∧ 3 ≤ String.length (PyStr.format_03 n)
  ∧ (n < 1000 → String.length (PyStr.format_03 n) = 3)
  ∧ PyStr.nat_of_str (PyStr.format_03 n) = Some n.
Proof.
  assert (Hlen : ∀ a b, String.length (a +:+ b) = String.length a + String.length b).
  { intros a b. induction a as [|c a IH]; [done |].
    change (S (String.length (a +:+ b)) = S (String.length a) + String.length b).
    by rewrite IH. }
  assert (Hz : ∀ k, String.length (PyStr.zeros k) = k).
  { induction k as [|k IH]; [done |]. simpl. by rewrite IH. }
  split_and!.
  - apply all_digits_format_03.
  - unfold PyStr.format_03. rewrite Hlen, Hz. lia.
  - intros Hn.
    assert (Hall : forallb (λ m, String.length (PyStr.format_03 m) =? 3) (seq 0 1000) = true)
      by by vm_compute.
    rewrite forallb_forall in Hall. apply Nat.eqb_eq, Hall, in_seq. lia.
  - apply nat_of_str_format_03.
Qed.

(* ===================================================================== *)
(** * Properties of [scrape_dir]                                          *)
(* ===================================================================== *)

Lemma starts_with_iff (p s : string) :
  Scrape.starts_with p s = true ↔ ∃ post, s = p +:+ post.
Proof.
  unfold Scrape.starts_with.
  destruct (Re.strip_prefix p s) as [rest|] eqn:Hp.
  - apply strip_prefix_Some in Hp. split; [eauto | done].
  - split; [done |]. intros [post Hpost].
    apply strip_prefix_Some in Hpost. congruence.
Qed.

Lemma dot_ext_iff (ext s : string) :
  Scrape.dot_ext ext s = true ↔
  ∃ c post, s = String c (ext +:+ post) ∧ c ≠ PyStr.newline.
Proof.
  destruct s as [|c s]; simpl.
  - split; [done | by intros (c & post & ? & _)].
  - unfold Scrape.any_char.
    rewrite andb_true_iff, negb_true_iff, starts_with_iff. split.
    + intros [Hc [post ->]]. exists c, post. split; [done |].
      intros ->. by rewrite Ascii.eqb_refl in Hc.
    + intros (c' & post & [= <- ->] & Hc). split; [| eauto].
      by apply Ascii.eqb_neq.
Qed.

Lemma tail_here_iff (ext s : string) :
  Scrape.tail_here ext s = true ↔
  ∃ grp c post, s = grp +:+ String c (ext +:+ post)
                ∧ c ≠ PyStr.newline ∧ Scrape.is_group grp.
Proof.
  unfold Scrape.tail_here. rewrite orb_true_iff. split.
  - intros [H | H].
    + destruct s as [|u [|d s]]; try done.
      apply andb_true_iff in H as [[Hu Hd]%andb_true_iff H].
      apply Ascii.eqb_eq in Hu as ->.
      apply dot_ext_iff in H as (c & post & -> & Hc).
      exists (String "_" (String d "")), c, post.
      split_and!; [done | done |]. right. eauto.
    + apply dot_ext_iff in H as (c & post & -> & Hc).
      exists "", c, post. split_and!; [done | done | by left].
  - intros (grp & c & post & -> & Hc & [-> | (d & Hd & ->)]).
    + right. apply dot_ext_iff. eauto.
    + left.
      assert (Hdot : Scrape.dot_ext ext (String c (ext +:+ post)) = true)
        by (apply dot_ext_iff; eauto).
      change (String "_" (String d "") +:+ String c (ext +:+ post))
        with (String "_" (String d (String c (ext +:+ post)))).
      cbv beta iota. rewrite Hd, Hdot. done.
Qed.

(** X8: for a base name without special characters, a path matches the
    pattern of an extension exactly when it holds, anywhere, the base
    name, then nothing or an underscore and one digit, then any one
    character (the dot is not escaped), then the extension: the match is
    not anchored, neither at the file name nor at the end of the path. *)
Theorem scrape_search_iff (basename ext s : string) :
  Scrape.literal basename = true →
  Scrape.search basename ext s = true ↔
  ∃ pre grp c post,
    s = pre +:+ basename +:+ grp +:+ String c (ext +:+ post)
    ∧ c ≠ PyStr.newline ∧ Scrape.is_group grp.
Proof.
  intros _.
  assert (Hhere : ∀ s, Scrape.match_here basename ext s = true ↔
    ∃ grp c post, s = basename +:+ grp +:+ String c (ext +:+ post)
                  ∧ c ≠ PyStr.newline ∧ Scrape.is_group grp).
  { intros s'. unfold Scrape.match_here.
    destruct (Re.strip_prefix basename s') as [rest|] eqn:Hp.
    - apply strip_prefix_Some in Hp as ->. rewrite tail_here_iff. split.
      + intros (grp & c & post & -> & ? & ?). by exists grp, c, post.
      + intros (grp & c & post & Heq & ? & ?).
        apply (inj (String.app basename)) in Heq as ->. by exists grp, c, post.
    - split; [done |]. intros (grp & c & post & Heq & _).
      apply strip_prefix_Some in Heq. congruence. }
  induction s as [|a s IH].
  - cbn [Scrape.search]. rewrite orb_false_r, Hhere. split.
    + intros (grp & c & post & ? & ? & ?). by exists "", grp, c, post.
    + intros (pre & grp & c & post & Heq & ? & ?).
      destruct pre; [| done]. by exists grp, c, post.
  - cbn [Scrape.search]. rewrite orb_true_iff, Hhere, IH. split.
    + intros [(grp & c & post & ? & ? & ?) | (pre & grp & c & post & -> & ? & ?)].
      * by exists "", grp, c, post.
      * by exists (String a pre), grp, c, post.
    + intros (pre & grp & c & post & Heq & ? & ?). destruct pre as [|b pre].
      * left. by exists grp, c, post.
      * right. injection Heq as -> ->. by exists pre, grp, c, post.
Qed.

Lemma scrape_search_iff_witness :
  ∃ pre grp c post,
    "/data/ts_2Xmrc.bak" = pre +:+ "ts" +:+ grp +:+ String c ("mrc" +:+ post)
    ∧ c ≠ PyStr.newline ∧ Scrape.is_group grp.
Proof.
  apply (scrape_search_iff "ts" "mrc" "/data/ts_2Xmrc.bak"); by vm_compute.
Defined.

Import Scrape.

(** The loop of line 27 sends each path to the list of its kind and
    keeps the order of the listing. *)
Lemma collect_filter (basename : string) (listing : list string) :
  mrc_files (collect basename listing)
    = filter (λ f, kind_of basename f = Some Stack) listing
  ∧ meta_files (collect basename listing)
    = filter (λ f, kind_of basename f = Some Params) listing
  ∧ tilt_files (collect basename listing)
    = filter (λ f, kind_of basename f = Some Angles) listing.
Proof.
  assert (Hgen : ∀ acc,
    foldl (collect_step basename) acc listing
    = Found (mrc_files acc ++ filter (λ f, kind_of basename f = Some Stack) listing)
            (meta_files acc ++ filter (λ f, kind_of basename f = Some Params) listing)
            (tilt_files acc ++ filter (λ f, kind_of basename f = Some Angles) listing)).
  { induction listing as [|f listing IH]; intros acc.
    - simpl. rewrite !filter_nil, !app_nil_r. by destruct acc.
    - cbn [foldl]. rewrite IH, !filter_cons. unfold collect_step, kind_of.
      destruct (search basename "mrc" f), (search basename "txt" f),
        (search basename "rawtlt" f); simpl;
        repeat case_decide; try done; by rewrite <- ?app_assoc. }
  unfold collect. by rewrite Hgen.
Qed.

#[local] Instance string_le_trans : Transitive String.le.
Proof. apply String.le_po. Qed.

#[local] Instance string_le_antisymm : AntiSymm (=) String.le.
Proof. apply String.le_po. Qed.

Lemma sort_Sorted (l : list string) : Sorted String.le (sort l).
Proof. apply Sorted_merge_sort. apply _. Qed.

Lemma sort_Permutation (l : list string) : sort l ≡ₚ l.
Proof. apply merge_sort_Permutation. Qed.

(** The sorted list of a set of paths does not depend on the order they
    were found in. *)
Lemma sort_perm (l k : list string) : l ≡ₚ k → sort l = sort k.
Proof.
  intros Hperm. apply (Sorted_unique String.le); try apply sort_Sorted.
  by rewrite !sort_Permutation.
Qed.

Lemma Sorted_take {A} (R : relation A) (n : nat) (l : list A) :
  Sorted R l → Sorted R (take n l).
Proof.
  intros Hl. revert n. induction Hl as [|x l Hl IH Hhd]; intros [|n]; simpl;
    try constructor; auto.
  destruct Hhd as [|y l' Hxy]; destruct n; simpl; constructor; done.
Qed.

(** X9: for a base name without special characters, a path of the
    listing goes to at most one of the three lists, the stacks before
    the parameters files before the angle lists: a path that matches the
    stack pattern is a stack even when it also matches another pattern,
    and a path matching none is dropped. *)
Theorem scrape_lists_by_priority (basename : string) (listing : list string)
    (f : string) :
  literal basename = true →
  let acc := collect basename listing in
  (f ∈ mrc_files acc ↔ f ∈ listing ∧ search basename "mrc" f = true)
  ∧ (f ∈ meta_files acc ↔
       f ∈ listing ∧ search basename "mrc" f = false
       ∧ search basename "txt" f = true)
  ∧ (f ∈ tilt_files acc ↔
       f ∈ listing ∧ search basename "mrc" f = false
       ∧ search basename "txt" f = false
       ∧ search basename "rawtlt" f = true)
  ∧ ¬ (f ∈ mrc_files acc ∧ f ∈ meta_files acc)
  ∧ ¬ (f ∈ mrc_files acc ∧ f ∈ tilt_files acc)
  ∧ ¬ (f ∈ meta_files acc ∧ f ∈ tilt_files acc).
Proof.
  intros _.
  destruct (collect_filter basename listing) as (H1 & H2 & H3).
  simpl. rewrite H1, H2, H3, !list_elem_of_filter. unfold kind_of.
  destruct (search basename "mrc" f), (search basename "txt" f),
    (search basename "rawtlt" f); naive_solver.
Qed.

(** X10: for a base name without special characters, [scrape_dir]
    yields as many triples as the shortest of the three lists has paths,
    silently dropping what is left over; the stacks of the triples are
    the first stacks in the order of the paths, and so are the
    parameters files and the angle lists: the i-th stack is paired with
    the i-th parameters file and the i-th angle list, whatever their
    names are. *)
Theorem scrape_dir_pairs_by_rank (dir_name : string) (basename : option string)
    (listing : list string) :
  literal (default dir_name basename) = true →
  let b := default dir_name basename in
  let found k := filter (λ f, kind_of b f = Some k) listing in
  let r := scrape_dir dir_name basename listing in
  let n := (length (found Stack) `min` length (found Params))
             `min` length (found Angles) in
  length r = n
  ∧ r.*1 = take n (sort (found Stack))
  ∧ r.*2.*1 = take n (sort (found Params))
  ∧ r.*2.*2 = take n (sort (found Angles))
  ∧ Sorted String.le r.*1 ∧ Sorted String.le r.*2.*1
  ∧ Sorted String.le r.*2.*2
  ∧ sort (found Stack) ≡ₚ found Stack
  ∧ sort (found Params) ≡ₚ found Params
  ∧ sort (found Angles) ≡ₚ found Angles.
Proof.
  intros _ b found r n.
  destruct (collect_filter b listing) as (H1 & H2 & H3).
  assert (Hl : ∀ l, length (sort l) = length l)
    by (intros l; by rewrite sort_Permutation).
  assert (Hr : r = zip (sort (found Stack))
                 (zip (sort (found Params)) (sort (found Angles)))).
  { unfold r, scrape_dir. fold b. by rewrite H1, H2, H3. }
  assert (E1 : r.*1 = take n (sort (found Stack))).
  { rewrite Hr, zip_fst_take, length_zip_with, !Hl.
    rewrite <- (take_ge (sort (found Stack)) (length (found Stack))) at 1
      by (rewrite Hl; lia).
    rewrite take_take. f_equal; unfold n; lia. }
  assert (E2 : r.*2.*1 = take n (sort (found Params))).
  { rewrite Hr, zip_snd_take, fmap_take, zip_fst_take, !Hl, take_take.
    rewrite <- (take_ge (sort (found Params)) (length (found Params))) at 1
      by (rewrite Hl; lia).
    rewrite take_take. f_equal; unfold n; lia. }
  assert (E3 : r.*2.*2 = take n (sort (found Angles))).
  { rewrite Hr, zip_snd_take, fmap_take, zip_snd_take, !Hl, take_take.
    rewrite <- (take_ge (sort (found Angles)) (length (found Angles))) at 1
      by (rewrite Hl; lia).
    rewrite take_take. f_equal; unfold n; lia. }
  split_and!; try done.
  - rewrite Hr, !length_zip_with, !Hl. unfold n. lia.
  - rewrite E1. apply Sorted_take, sort_Sorted.
  - rewrite E2. apply Sorted_take, sort_Sorted.
  - rewrite E3. apply Sorted_take, sort_Sorted.
  - apply sort_Permutation.
  - apply sort_Permutation.
  - apply sort_Permutation.
Qed.

(** X11: for a base name without special characters, the result of
    [scrape_dir] does not depend on the order in which the directory is
    listed. *)
Theorem scrape_dir_listing_order (dir_name : string) (basename : option string)
    (listing listing' : list string) :
  literal (default dir_name basename) = true →
  listing ≡ₚ listing' →
  scrape_dir dir_name basename listing = scrape_dir dir_name basename listing'.
Proof.
  intros _ Hperm. unfold scrape_dir.
  destruct (collect_filter (default dir_name basename) listing) as (-> & -> & ->).
  destruct (collect_filter (default dir_name basename) listing') as (-> & -> & ->).
  f_equal; [| f_equal]; apply sort_perm; by rewrite Hperm.
Qed.

(** ** These properties on a directory *)

Lemma scrape_lists_by_priority_witness :
  let acc := collect "ts" ["/d/ts.txt"; "/d/ts.mrc_ts.txt"; "/d/ts.rawtlt"; "/d/notes"] in
  ("/d/ts.mrc_ts.txt" ∈ mrc_files acc ↔
     "/d/ts.mrc_ts.txt" ∈ ["/d/ts.txt"; "/d/ts.mrc_ts.txt"; "/d/ts.rawtlt"; "/d/notes"]
     ∧ search "ts" "mrc" "/d/ts.mrc_ts.txt" = true)
  ∧ ("/d/ts.mrc_ts.txt" ∈ meta_files acc ↔
       "/d/ts.mrc_ts.txt" ∈ ["/d/ts.txt"; "/d/ts.mrc_ts.txt"; "/d/ts.rawtlt"; "/d/notes"]
       ∧ search "ts" "mrc" "/d/ts.mrc_ts.txt" = false
       ∧ search "ts" "txt" "/d/ts.mrc_ts.txt" = true)
  ∧ ("/d/ts.mrc_ts.txt" ∈ tilt_files acc ↔
       "/d/ts.mrc_ts.txt" ∈ ["/d/ts.txt"; "/d/ts.mrc_ts.txt"; "/d/ts.rawtlt"; "/d/notes"]
       ∧ search "ts" "mrc" "/d/ts.mrc_ts.txt" = false
       ∧ search "ts" "txt" "/d/ts.mrc_ts.txt" = false
       ∧ search "ts" "rawtlt" "/d/ts.mrc_ts.txt" = true)
  ∧ ¬ ("/d/ts.mrc_ts.txt" ∈ mrc_files acc ∧ "/d/ts.mrc_ts.txt" ∈ meta_files acc)
  ∧ ¬ ("/d/ts.mrc_ts.txt" ∈ mrc_files acc ∧ "/d/ts.mrc_ts.txt" ∈ tilt_files acc)
  ∧ ¬ ("/d/ts.mrc_ts.txt" ∈ meta_files acc ∧ "/d/ts.mrc_ts.txt" ∈ tilt_files acc).
Proof.
  apply (scrape_lists_by_priority "ts"
           ["/d/ts.txt"; "/d/ts.mrc_ts.txt"; "/d/ts.rawtlt"; "/d/notes"] "/d/ts.mrc_ts.txt").
  by vm_compute.
Defined.

Lemma scrape_dir_pairs_by_rank_witness :
  let r := scrape_dir "ts" None
             ["/d/ts_2.mrc"; "/d/ts.txt"; "/d/ts_1.rawtlt"; "/d/ts_1.mrc";
              "/d/ts.rawtlt"; "/d/ts.mrc"; "/d/ts_2.txt"] in
  r.*1 = ["/d/ts.mrc"; "/d/ts_1.mrc"]
  ∧ r.*2.*1 = ["/d/ts.txt"; "/d/ts_2.txt"]
  ∧ r.*2.*2 = ["/d/ts.rawtlt"; "/d/ts_1.rawtlt"].
Proof.
  destruct (scrape_dir_pairs_by_rank "ts" None
              ["/d/ts_2.mrc"; "/d/ts.txt"; "/d/ts_1.rawtlt"; "/d/ts_1.mrc";
               "/d/ts.rawtlt"; "/d/ts.mrc"; "/d/ts_2.txt"])
    as (_ & H1 & H2 & H3 & _); [by vm_compute |].
  split_and!.
  - etrans; [exact H1 | by vm_compute].
  - etrans; [exact H2 | by vm_compute].
  - etrans; [exact H3 | by vm_compute].
Defined.

Lemma scrape_dir_listing_order_witness :
  scrape_dir "ts" None
    ["/d/ts_1.rawtlt"; "/d/ts.txt"; "/d/ts_1.mrc"; "/d/ts.rawtlt"; "/d/ts.mrc";
     "/d/ts_1.txt"]
  = [("/d/ts.mrc", ("/d/ts.txt", "/d/ts.rawtlt"));
     ("/d/ts_1.mrc", ("/d/ts_1.txt", "/d/ts_1.rawtlt"))]
  ∧ scrape_dir "ts" None
      ["/d/ts.mrc"; "/d/ts_1.mrc"; "/d/ts.rawtlt"; "/d/ts_1.rawtlt"; "/d/ts_1.txt";
       "/d/ts.txt"]
    = [("/d/ts.mrc", ("/d/ts.txt", "/d/ts.rawtlt"));
       ("/d/ts_1.mrc", ("/d/ts_1.txt", "/d/ts_1.rawtlt"))].
Proof.
  assert (Hperm :
    ["/d/ts_1.rawtlt"; "/d/ts.txt"; "/d/ts_1.mrc"; "/d/ts.rawtlt"; "/d/ts.mrc";
     "/d/ts_1.txt"]
    ≡ₚ ["/d/ts.mrc"; "/d/ts_1.mrc"; "/d/ts.rawtlt"; "/d/ts_1.rawtlt"; "/d/ts_1.txt";
        "/d/ts.txt"]).
  { apply (bool_decide_unpack _). by vm_compute. }
  rewrite <- (scrape_dir_listing_order "ts" None _ _ eq_refl Hperm).
  split; by vm_compute.
Defined.
